(** * Structured-data generator: extraction pipeline and prompt orchestration

    A shallow embedding of [app.py] (classes [WebScraper] and
    [StructuredDataGenerator]) together with the properties of the
    extraction caps, the content-type classifier, the sitemap resolver and
    the two generation-service operations.

    Conventions of the model.
    - Python [str] values are [string]s (byte strings); case folding and
      white space are the ASCII ones.
    - A parsed HTML document (the [BeautifulSoup] object built by
      [html.parser]) is the list of its top-level nodes; a parsed sitemap
      (the [ElementTree] root) is an [xelem].  Parsing itself is library
      code and is not modelled: the functions below start from the tree.
    - A Python exception (a subclass of [Exception]) is a value of [exn];
      code that may raise runs in the [outcome] monad, and a [try] with its
      [except Exception] handler is [try_except].
    - [st.error] only displays a message and is left out. *)

From Stdlib Require Import Ascii String List ZArith QArith Lia Bool DecimalString Sorted.
From stdpp Require Import base option list strings gmap.

Set Warnings "-register-all".
Open Scope string_scope.

(** ** Python strings *)

Module PyStr.

Definition code (c : ascii) : nat := nat_of_ascii c.

(** [str.isspace] on the ASCII range: TAB, LF, VT, FF, CR, the four
    separators FS GS RS US, and the space. *)
Definition is_space (c : ascii) : bool :=
  let n := code c in
  ((9 <=? n)%nat && (n <=? 13)%nat) || ((28 <=? n)%nat && (n <=? 32)%nat).

Fixpoint lstrip (s : string) : string :=
  match s with
  | String c s' => if is_space c then lstrip s' else s
  | EmptyString => EmptyString
  end.

Fixpoint rev_onto (s acc : string) : string :=
  match s with
  | String c s' => rev_onto s' (String c acc)
  | EmptyString => acc
  end.

Definition rev (s : string) : string := rev_onto s EmptyString.

Definition rstrip (s : string) : string := rev (lstrip (rev s)).

(** [s.strip()] *)
Definition strip (s : string) : string := rstrip (lstrip s).

Definition lower_char (c : ascii) : ascii :=
  let n := code c in
  if (65 <=? n)%nat && (n <=? 90)%nat then ascii_of_nat (n + 32) else c.

Fixpoint lower (s : string) : string :=
  match s with
  | String c s' => String (lower_char c) (lower s')
  | EmptyString => EmptyString
  end.

(** [s.startswith(p)] *)
Fixpoint startswith (p s : string) : bool :=
  match p, s with
  | EmptyString, _ => true
  | String a p', String b s' => if Ascii.eqb a b then startswith p' s' else false
  | String _ _, EmptyString => false
  end.

(** [needle in hay] *)
Fixpoint contains (needle hay : string) : bool :=
  startswith needle hay ||
  match hay with
  | String _ hay' => contains needle hay'
  | EmptyString => false
  end.

(** Truthiness of a string: [if s:] *)
Definition truthy (s : string) : bool :=
  match s with EmptyString => false | String _ _ => true end.

(** [sep.join(l)] *)
Fixpoint join (sep : string) (l : list string) : string :=
  match l with
  | [] => ""
  | [x] => x
  | x :: l' => x ++ sep ++ join sep l'
  end.

(** [s.split(c)] for a one-character separator: never an empty list. *)
Fixpoint split_on (c : ascii) (s : string) : list string :=
  match s with
  | EmptyString => [""]
  | String a s' =>
      if Ascii.eqb a c then "" :: split_on c s'
      else match split_on c s' with
           | w :: ws => String a w :: ws
           | [] => [String a ""]
           end
  end.

(** The maximal runs of non-space characters, [re.findall(r'\S+', s)],
    which is also [s.split()]. *)
Fixpoint words_from (cur : string) (s : string) : list string :=
  match s with
  | EmptyString => if truthy cur then [rev cur] else []
  | String a s' =>
      if is_space a
      then (if truthy cur then rev cur :: words_from "" s' else words_from "" s')
      else words_from (String a cur) s'
  end.

Definition words (s : string) : list string := words_from "" s.

End PyStr.

(** ** Regular expressions of the classifier

    Every pattern of the source is an alternation of literal words compiled
    with [re.I]; [search] succeeds when one of the words occurs anywhere in
    the subject, case-insensitively. *)

Record regex := Alternation { alternatives : list string }.

Definition re_search (r : regex) (s : string) : bool :=
  existsb (fun w => PyStr.contains (PyStr.lower w) (PyStr.lower s)) (alternatives r).

(** ** Parsed HTML *)

Inductive node :=
| NavigableString (s : string)
| Comment (s : string)
| Tag (name : string) (attrs : gmap string string) (contents : list node).

(** All tags below a node (the node included), in document order: the order
    of [Tag.descendants]. *)
Fixpoint tags_of (n : node) : list node :=
  match n with
  | Tag _ _ cs => n :: flat_map tags_of cs
  | _ => []
  end.

Definition soup := list node.

Definition descendants (doc : soup) : list node := flat_map tags_of doc.

Definition tag_name (n : node) : string :=
  match n with Tag nm _ _ => nm | _ => "" end.

Definition tag_attrs (n : node) : gmap string string :=
  match n with Tag _ a _ => a | _ => ∅ end.

Definition tag_contents (n : node) : list node :=
  match n with Tag _ _ cs => cs | _ => [] end.

(** [tag.get(key)] and [tag.get(key, default)] *)
Definition get (n : node) (key : string) : option string := tag_attrs n !! key.

Definition get_default (n : node) (key dflt : string) : string :=
  match get n key with Some v => v | None => dflt end.

(** ** Exceptions and the [try]/[except] monad *)

Inductive exn :=
| RequestException (msg : string)   (* [session.get], [raise_for_status] *)
| ParseError (msg : string)         (* [ET.fromstring] *)
| AttributeError (msg : string)
| KeyError (key : string)
| IndexError (msg : string)
| ValueError (msg : string)
| JSONDecodeError (msg : string)
| APIError (msg : string).          (* the generation service *)

(** [str(e)] *)
Definition str_exn (e : exn) : string :=
  match e with
  | KeyError k => "'" ++ k ++ "'"
  | RequestException m | ParseError m | AttributeError m | IndexError m
  | ValueError m | JSONDecodeError m | APIError m => m
  end.

Inductive outcome (A : Type) :=
| Return (a : A)
| Raise (e : exn).
Arguments Return {A} a.
Arguments Raise {A} e.

#[export] Instance outcome_ret : MRet outcome := fun A a => Return a.
#[export] Instance outcome_bind : MBind outcome := fun A B f m =>
  match m with
  | Return a => f a
  | Raise e => Raise e
  end.

(** [try: body  except Exception as e: handler e] *)
Definition try_except {A} (body : outcome A) (handler : exn -> A) : A :=
  match body with
  | Return a => a
  | Raise e => handler e
  end.

(** A [for] loop whose body may raise: the accumulator is threaded from left
    to right and the first exception leaves the loop. *)
Fixpoint for_each {A S} (body : S -> A -> outcome S) (l : list A) (acc : S) : outcome S :=
  match l with
  | [] => Return acc
  | x :: l' => acc' ← body acc x; for_each body l' acc'
  end.

(** ** [urllib.parse.urljoin]

    Library code, modelled after [urllib/parse.py]: scheme, authority, path,
    parameters, query and fragment are split as [urlsplit] and [urlparse]
    do, and a relative reference is resolved as [urljoin] does.  Of the
    validity checks only the one on unbalanced brackets in the authority is
    kept. *)

Module Url.
Import PyStr.

Record parts := Parts {
  scheme : string; netloc : string; path : string;
  params : string; query : string; fragment : string }.

Definition uses_relative : list string :=
  [""; "ftp"; "http"; "gopher"; "nntp"; "imap"; "wais"; "file"; "https";
   "shttp"; "mms"; "prospero"; "rtsp"; "rtsps"; "rtspu"; "sftp"; "svn";
   "svn+ssh"; "ws"; "wss"].

Definition uses_netloc : list string :=
  [""; "ftp"; "http"; "gopher"; "nntp"; "telnet"; "imap"; "wais"; "file";
   "mms"; "https"; "shttp"; "snews"; "prospero"; "rtsp"; "rtsps"; "rtspu";
   "rsync"; "svn"; "svn+ssh"; "sftp"; "nfs"; "git"; "git+ssh"; "ws"; "wss"].

Definition uses_params : list string :=
  [""; "ftp"; "hdl"; "prospero"; "http"; "imap"; "https"; "shttp"; "rtsp";
   "rtsps"; "rtspu"; "sip"; "sips"; "mms"; "sftp"; "tel"].

Definition mem (x : string) (l : list string) : bool := existsb (String.eqb x) l.

Definition has_char (c : ascii) (s : string) : bool :=
  existsb (Ascii.eqb c) (list_ascii_of_string s).

(** [s.split(c, 1)] when [c] occurs in [s]. *)
Fixpoint partition (c : ascii) (s : string) : option (string * string) :=
  match s with
  | EmptyString => None
  | String a s' =>
      if Ascii.eqb a c then Some (EmptyString, s')
      else match partition c s' with
           | Some (pre, post) => Some (String a pre, post)
           | None => None
           end
  end.

(** The prefix before the first character satisfying [p], and the rest. *)
Fixpoint span_until (p : ascii -> bool) (s : string) : string * string :=
  match s with
  | EmptyString => (EmptyString, EmptyString)
  | String a s' =>
      if p a then (EmptyString, s)
      else let '(pre, post) := span_until p s' in (String a pre, post)
  end.

Fixpoint remove_chars (p : ascii -> bool) (s : string) : string :=
  match s with
  | EmptyString => EmptyString
  | String a s' => if p a then remove_chars p s' else String a (remove_chars p s')
  end.

Fixpoint lstrip_by (p : ascii -> bool) (s : string) : string :=
  match s with
  | String a s' => if p a then lstrip_by p s' else s
  | EmptyString => EmptyString
  end.

Definition c0_or_space (c : ascii) : bool := (code c <=? 32)%nat.
Definition tab_cr_lf (c : ascii) : bool :=
  let n := code c in (n =? 9)%nat || (n =? 10)%nat || (n =? 13)%nat.

Definition is_alpha (c : ascii) : bool :=
  let n := code c in
  ((65 <=? n)%nat && (n <=? 90)%nat) || ((97 <=? n)%nat && (n <=? 122)%nat).
Definition is_digit (c : ascii) : bool :=
  let n := code c in (48 <=? n)%nat && (n <=? 57)%nat.
Definition scheme_char (c : ascii) : bool :=
  is_alpha c || is_digit c || has_char c "+-.".

Definition head_is (p : ascii -> bool) (s : string) : bool :=
  match s with String a _ => p a | EmptyString => false end.

Definition drop2 (s : string) : string :=
  match s with String _ (String _ s') => s' | _ => EmptyString end.

Definition split1 (c : ascii) (s : string) : string * string :=
  match partition c s with Some ps => ps | None => (s, EmptyString) end.

Definition urlsplit (url dflt_scheme : string) : outcome parts :=
  let url := remove_chars tab_cr_lf (lstrip_by c0_or_space url) in
  let dflt_scheme :=
    remove_chars tab_cr_lf (rev (lstrip_by c0_or_space (rev (lstrip_by c0_or_space dflt_scheme)))) in
  let '(sch, url) :=
    match partition ":" url with
    | Some (pre, post) =>
        if head_is is_alpha pre && forallb scheme_char (list_ascii_of_string pre)
        then (lower pre, post) else (dflt_scheme, url)
    | None => (dflt_scheme, url)
    end in
  '(nl, url) ←
    (if startswith "//" url then
       let '(nl, rest) := span_until (fun c => has_char c "/?#") (drop2 url) in
       if xorb (has_char "[" nl) (has_char "]" nl)
       then Raise (ValueError "Invalid IPv6 URL")
       else Return (nl, rest)
     else Return (EmptyString, url));
  let '(url, frag) := split1 "#" url in
  let '(url, qry) := split1 "?" url in
  Return (Parts sch nl url EmptyString qry frag).

(** The text up to and including the last [/], and the text after it. *)
Definition split_last_segment (u : string) : string * string :=
  let '(last_rev, dir_rev) := span_until (Ascii.eqb "/") (rev u) in
  (rev dir_rev, rev last_rev).

(** [_splitparams]: the parameters start at the first [;] of the last
    path segment. *)
Definition splitparams (url : string) : string * string :=
  let '(dir, last) := split_last_segment url in
  match partition ";" last with
  | Some (pre, post) => (dir ++ pre, post)
  | None => (url, EmptyString)
  end.

Definition urlparse (url dflt_scheme : string) : outcome parts :=
  r ← urlsplit url dflt_scheme;
  if mem (scheme r) uses_params && has_char ";" (path r)
  then let '(u, ps) := splitparams (path r) in
       Return (Parts (scheme r) (netloc r) u ps (query r) (fragment r))
  else Return r.

Definition urlunsplit (sch nl url qry frag : string) : string :=
  let url :=
    if truthy nl || (truthy sch && mem sch uses_netloc && negb (startswith "//" url))
    then "//" ++ nl ++ (if truthy url && negb (startswith "/" url) then "/" ++ url else url)
    else url in
  let url := if truthy sch then sch ++ ":" ++ url else url in
  let url := if truthy qry then url ++ "?" ++ qry else url in
  if truthy frag then url ++ "#" ++ frag else url.

Definition urlunparse (r : parts) : string :=
  urlunsplit (scheme r) (netloc r)
    (if truthy (params r) then path r ++ ";" ++ params r else path r)
    (query r) (fragment r).

(** [segments[1:-1] = filter(None, segments[1:-1])] *)
Definition drop_empty_inner (segments : list string) : list string :=
  match segments with
  | [] => []
  | first :: rest =>
      match List.rev rest with
      | [] => [first]
      | last :: inner_rev => first :: List.filter truthy (List.rev inner_rev) ++ [last]
      end
  end.

(** The loop over [segments] that builds [resolved_path]. *)
Definition resolve_step (resolved : list string) (seg : string) : list string :=
  if String.eqb seg ".." then removelast resolved
  else if String.eqb seg "." then resolved
  else resolved ++ [seg].

Definition resolve (segments : list string) : list string :=
  let resolved := fold_left resolve_step segments [] in
  match List.last segments EmptyString with
  | "." | ".." => resolved ++ [EmptyString]
  | _ => resolved
  end.

Definition urljoin (base url : string) : outcome string :=
  if negb (truthy base) then Return url
  else if negb (truthy url) then Return base
  else
    b ← urlparse base EmptyString;
    u ← urlparse url (scheme b);
    if negb (String.eqb (scheme u) (scheme b)) || negb (mem (scheme u) uses_relative)
    then Return url
    else if mem (scheme u) uses_netloc && truthy (netloc u)
    then Return (urlunparse u)
    else
      let nl := if mem (scheme u) uses_netloc then netloc b else netloc u in
      if negb (truthy (path u)) && negb (truthy (params u))
      then Return (urlunparse
             (Parts (scheme u) nl (path b) (params b)
                    (if truthy (query u) then query u else query b) (fragment u)))
      else
        let base_parts := split_on "/" (path b) in
        let base_parts :=
          if truthy (List.last base_parts EmptyString) then removelast base_parts
          else base_parts in
        let segments :=
          if startswith "/" (path u) then split_on "/" (path u)
          else drop_empty_inner (base_parts ++ split_on "/" (path u)) in
        let joined := join "/" (resolve segments) in
        Return (urlunparse
          (Parts (scheme u) nl (if truthy joined then joined else "/")
                 (params u) (query u) (fragment u))).

End Url.

(** From here on [++] appends lists and [+:+] appends strings. *)
Open Scope list_scope.

(** ** Searching the parsed document *)

(** [soup.find_all(names, ...)] with an extra test on the tag: the matching
    tags in document order. *)
Definition find_all (names : list string) (test : node -> bool) (doc : soup) : list node :=
  List.filter (fun n => Url.mem (tag_name n) names && test n) (descendants doc).

(** [soup.find(name, ...)]: the first match, or [None]. *)
Definition find (names : list string) (test : node -> bool) (doc : soup) : option node :=
  head (find_all names test doc).

Definition any_tag (_ : node) : bool := true.

(** [attrs={key: value}] and [type=value]: the attribute is present and
    equal to the given string. *)
Definition attr_is (key value : string) (n : node) : bool :=
  match get n key with
  | Some v => String.eqb v value
  | None => false
  end.

(** [class_=regex]: the [class] attribute is a list of class names; the
    regex is tried on each name and then on the names joined by a space. *)
Definition class_matches (r : regex) (n : node) : bool :=
  match get n "class" with
  | Some v =>
      let classes := PyStr.words v in
      existsb (re_search r) classes || re_search r (PyStr.join " " classes)
  | None => false
  end.

(** [tag.string]: the single string below a tag, through any chain of only
    children; [None] when a tag on the way has no child or several. *)
Fixpoint node_string (n : node) : option string :=
  match n with
  | NavigableString s => Some s
  | Comment s => Some s
  | Tag _ _ [c] => node_string c
  | Tag _ _ _ => None
  end.

(** [tag.get_text()]: the text strings below the tag, concatenated in
    document order; comments are not text. *)
Fixpoint get_text (n : node) : string :=
  match n with
  | NavigableString s => s
  | Comment _ => EmptyString
  | Tag _ _ cs => String.concat EmptyString (map get_text cs)
  end.

(** Truthiness of a list: [if l:] *)
Definition nonempty {A} (l : list A) : bool :=
  match l with [] => false | _ :: _ => true end.

(** [str(i)] for a natural number. *)
Definition str_nat (n : nat) : string := NilEmpty.string_of_uint (Nat.to_uint n).

(** ** Parsed XML (ElementTree) *)

Inductive xelem :=
| XElem (tag : string) (text : option string) (children : list xelem).

Definition xtag (e : xelem) : string := match e with XElem t _ _ => t end.
Definition xtext (e : xelem) : option string := match e with XElem _ t _ => t end.
Definition xchildren (e : xelem) : list xelem := match e with XElem _ _ cs => cs end.

(** [elem.iter()]: the element and everything below it, in document order. *)
Fixpoint xiter (e : xelem) : list xelem :=
  match e with
  | XElem _ _ cs => e :: flat_map xiter cs
  end.

Definition sitemap_ns : string := "http://www.sitemaps.org/schemas/sitemap/0.9".

(** The tag [ns:name] in ElementTree's notation, [{uri}name]. *)
Definition qname (uri name : string) : string := "{" +:+ uri +:+ "}" +:+ name.

(** The path steps of [findall]: [.//tag] yields, for the context element,
    every element below it (itself excluded) with that tag; [/tag] yields,
    for each element found so far, its children with that tag. *)
Definition select_descendants (tag : string) (context : list xelem) : list xelem :=
  flat_map (fun e => List.filter (fun d => String.eqb (xtag d) tag)
                                 (flat_map xiter (xchildren e))) context.

Definition select_children (tag : string) (context : list xelem) : list xelem :=
  flat_map (fun e => List.filter (fun c => String.eqb (xtag c) tag) (xchildren e)) context.

(** [root.findall('.//ns:url/ns:loc', namespaces)] *)
Definition findall_url_loc (root : xelem) : list xelem :=
  select_children (qname sitemap_ns "loc")
    (select_descendants (qname sitemap_ns "url") [root]).

(** ** JSON values *)

Inductive json :=
| JNull
| JBool (b : bool)
| JNumber (literal : string)
| JString (s : string)
| JArray (items : list json)
| JObject (members : list (string * json)).

(** ** The page record *)

Record heading := Heading { h_level : nat; h_text : string }.
Record image := Image { img_src : string; img_alt : string; img_title : string }.
Record json_ld := JsonLd { sd_type : string; sd_data : json }.

Record page_info := PageInfo {
  url : string;
  title : string;
  meta_description : string;
  headings : list heading;
  images : list image;
  links : list string;
  content_type : string;
  structured_data : list json_ld }.

(** What [scrape_page] returns: the full dictionary, or the dictionary with
    only [url] and [error]. *)
Inductive page :=
| Page (info : page_info)
| PageError (url : string) (error : string).

(** ['error' in page] *)
Definition has_error (p : page) : bool :=
  match p with Page _ => false | PageError _ _ => true end.

(** ** class WebScraper *)

Section WebScraper.

(** [self.session.get(url, timeout=10)], [raise_for_status] and the parse
    of the body: by [html.parser] for a page, by [ET.fromstring] for a
    sitemap.  Each raises on failure. *)
Variable fetch_html : string -> outcome soup.
Variable fetch_xml : string -> outcome xelem.
(** [json.loads] on a string, [None] when it raises. *)
Variable json_loads : string -> option json.

Definition sitemap_loop (locs : list xelem) : list string :=
  fold_left (fun urls loc =>
               match xtext loc with
               | Some t => if PyStr.truthy t then urls ++ [PyStr.strip t] else urls
               | None => urls
               end) locs [].

Definition scrape_sitemap (sitemap_url : string) : list string :=
  try_except
    (root ← fetch_xml sitemap_url;
     let urls := sitemap_loop (findall_url_loc root) in
     Return (take 50 urls))
    (fun _ => []).

Definition _detect_content_type (doc : soup) : string :=
  if nonempty (find_all ["div"; "span"] (class_matches (Alternation ["price"; "prezzo"])) doc)
  then "product"
  else if nonempty (find_all ["article"; "div"] (class_matches (Alternation ["article"; "post"; "blog"])) doc)
  then "article"
  else if nonempty (find_all ["div"; "span"] (class_matches (Alternation ["event"; "evento"; "data"])) doc)
  then "event"
  else if nonempty (find_all ["div"; "span"] (class_matches (Alternation ["address"; "indirizzo"; "contact"])) doc)
  then "local_business"
  else "webpage".

Definition _extract_existing_structured_data (doc : soup) : list json_ld :=
  fold_left (fun structured script =>
               match node_string script with
               | Some s =>
                   match json_loads s with
                   | Some data => structured ++ [JsonLd "json-ld" data]
                   | None => structured
                   end
               | None => structured
               end)
            (find_all ["script"] (attr_is "type" "application/ld+json") doc) [].

(** [soup.title.string.strip() if soup.title else ''] *)
Definition title_of (doc : soup) : outcome string :=
  match find ["title"] any_tag doc with
  | Some t =>
      match node_string t with
      | Some s => Return (PyStr.strip s)
      | None => Raise (AttributeError "'NoneType' object has no attribute 'strip'")
      end
  | None => Return EmptyString
  end.

Definition meta_description_of (doc : soup) : string :=
  match find ["meta"] (attr_is "name" "description") doc with
  | Some meta_desc => get_default meta_desc "content" EmptyString
  | None => EmptyString
  end.

Definition headings_loop (doc : soup) : list heading :=
  fold_left (fun hs i =>
               fold_left (fun hs h => hs ++ [Heading i (PyStr.strip (get_text h))])
                         (take 5 (find_all ["h" +:+ str_nat i] any_tag doc)) hs)
            (seq 1 6) [].

(** The body of the loop over the [img] elements. *)
Definition image_step (url : string) (imgs : list image) (img : node) : outcome (list image) :=
  match get img "src" with
  | Some src =>
      if PyStr.truthy src
      then abs ← Url.urljoin url src;
           Return (imgs ++ [Image abs (get_default img "alt" EmptyString)
                                  (get_default img "title" EmptyString)])
      else Return imgs
  | None => Return imgs
  end.

Definition images_loop (url : string) (doc : soup) : outcome (list image) :=
  for_each (image_step url) (take 10 (find_all ["img"] any_tag doc)) [].

Definition scrape_page (url : string) : page :=
  try_except
    (doc ← fetch_html url;
     t ← title_of doc;
     let ct := _detect_content_type doc in
     let sd := _extract_existing_structured_data doc in
     let md := meta_description_of doc in
     let hs := headings_loop doc in
     imgs ← images_loop url doc;
     Return (Page (PageInfo url t md hs imgs [] ct sd)))
    (fun e => PageError url (str_exn e)).

End WebScraper.

(** ** Formatting values into a prompt

    [repr] of the values an f-string interpolates: strings, numbers, lists
    of strings and lists of dictionaries. *)

Module PyRepr.
Import PyStr.

Definition squote : ascii := ascii_of_nat 39.
Definition dquote : ascii := ascii_of_nat 34.
Definition backslash : ascii := ascii_of_nat 92.

Definition hex_digit (n : nat) : ascii :=
  nth n (list_ascii_of_string "0123456789abcdef") "0"%char.

(** One character of [repr(s)] when [q] is the enclosing quote. *)
Definition escape_char (q c : ascii) : string :=
  let n := code c in
  if Ascii.eqb c q || Ascii.eqb c backslash then String backslash (String c EmptyString)
  else if (n =? 9)%nat then String backslash "t"
  else if (n =? 10)%nat then String backslash "n"
  else if (n =? 13)%nat then String backslash "r"
  else if (n <? 32)%nat || (n =? 127)%nat
  then String backslash (String "x" (String (hex_digit (n / 16)) (String (hex_digit (n mod 16)) EmptyString)))
  else String c EmptyString.

Fixpoint escape (q : ascii) (s : string) : string :=
  match s with
  | EmptyString => EmptyString
  | String c s' => escape_char q c +:+ escape q s'
  end.

(** [repr(s)]: single quotes, unless the string has a single quote and no
    double quote. *)
Definition repr_str (s : string) : string :=
  let q := if Url.has_char squote s && negb (Url.has_char dquote s) then dquote else squote in
  String q (escape q s) +:+ String q EmptyString.

Definition repr_list (items : list string) : string :=
  "[" +:+ join ", " items +:+ "]".

Definition repr_dict (members : list (string * string)) : string :=
  "{" +:+ join ", " (map (fun kv => repr_str (fst kv) +:+ ": " +:+ snd kv) members) +:+ "}".

Definition repr_heading (h : heading) : string :=
  repr_dict [("level", str_nat (h_level h)); ("text", repr_str (h_text h))].

Definition repr_image (i : image) : string :=
  repr_dict [("src", repr_str (img_src i)); ("alt", repr_str (img_alt i));
             ("title", repr_str (img_title i))].

(** A string between double quotes, as the prompt templates have them. *)
Definition quoted (s : string) : string :=
  String dquote s +:+ String dquote EmptyString.

(** [chr(10)] *)
Definition chr10 : string := String (ascii_of_nat 10) EmptyString.

Definition lines (l : list string) : string := join chr10 l.

End PyRepr.

(** ** class StructuredDataGenerator *)

(** A call of [client.chat.completions.create]: the model, the content of
    the single user message, and the temperature. *)
Record request := Request {
  model : string;
  content : string;
  temperature : Q }.

(** The response: the message content of each choice. *)
Record completion := Completion { choices : list string }.

(** Code that talks to the generation service: it reads and extends the log
    of the requests issued so far. *)
Definition service (A : Type) : Type := list request -> A * list request.

#[export] Instance service_ret : MRet service := fun A a log => (a, log).
#[export] Instance service_bind : MBind service := fun A B f m log =>
  let '(a, log') := m log in f a log'.

(** Running an operation from an empty log. *)
Definition run {A} (m : service A) : A * list request := m [].

Definition empty_suggestions : json := JObject [("suggestions", JArray [])].

Section StructuredDataGenerator.

(** [self.client]: what the service answers to a request, or the
    exception the call raises. *)
Variable client : request -> outcome completion.
Variable json_loads : string -> option json.

Definition create (r : request) : service (outcome completion) :=
  fun log => (client r, log ++ [r]).

(** [response.choices[0].message.content] *)
Definition first_content (r : completion) : outcome string :=
  match choices r with
  | c :: _ => Return c
  | [] => Raise (IndexError "list index out of range")
  end.

Definition loads (s : string) : outcome json :=
  match json_loads s with
  | Some j => Return j
  | None => Raise (JSONDecodeError "Expecting value")
  end.

Definition summary (info : page_info) : string :=
  "URL: " +:+ url info +:+ PyRepr.chr10 +:+
  "Titolo: " +:+ title info +:+ PyRepr.chr10 +:+
  "Tipo: " +:+ content_type info +:+ PyRepr.chr10 +:+
  "Headings: " +:+ PyRepr.repr_list (map (fun h => PyRepr.repr_str (h_text h)) (take 3 (headings info))).

Definition pages_summary (pages_info : list page) : list string :=
  fold_left (fun acc pg =>
               match pg with
               | Page info => acc ++ [summary info]
               | PageError _ _ => acc
               end) (take 5 pages_info) [].

Definition suggest_prompt (summaries : list string) : string :=
  PyRepr.lines
    [ "Analizza queste pagine web e suggerisci i migliori tipi di dati strutturati Schema.org da implementare:";
      "";
      PyStr.join PyRepr.chr10 summaries;
      "";
      "Fornisci suggerimenti specifici per ogni tipo di pagina identificata, considerando:";
      "1. I tipi di dati strutturati più efficaci per la SEO";
      "2. La compatibilità con Google Rich Snippets";
      "3. Le best practice di Schema.org";
      "";
      "Rispondi in formato JSON con questa struttura:";
      "{";
      "    " +:+ PyRepr.quoted "suggestions" +:+ ": [";
      "        {";
      "            " +:+ PyRepr.quoted "schema_type" +:+ ": " +:+ PyRepr.quoted "Product" +:+ ",";
      "            " +:+ PyRepr.quoted "pages" +:+ ": [" +:+ PyRepr.quoted "url1" +:+ ", " +:+ PyRepr.quoted "url2" +:+ "],";
      "            " +:+ PyRepr.quoted "reason" +:+ ": " +:+ PyRepr.quoted "Motivo della raccomandazione" +:+ ",";
      "            " +:+ PyRepr.quoted "priority" +:+ ": " +:+ PyRepr.quoted "high|medium|low";
      "        }";
      "    ]";
      "}" ].

Definition suggest_request (pages_info : list page) : request :=
  Request "gpt-4" (suggest_prompt (pages_summary pages_info)) (3 # 10).

Definition suggest_structured_data (pages_info : list page) : service json :=
  response ← create (suggest_request pages_info);
  mret (try_except (r ← response; c ← first_content r; loads c)
                   (fun _ => empty_suggestions)).

(** [custom_schema if custom_schema else schema_type] *)
Definition schema_to_use (schema_type : string) (custom_schema : option string) : string :=
  match custom_schema with
  | Some c => if PyStr.truthy c then c else schema_type
  | None => schema_type
  end.

Definition generate_prompt (info : page_info) (schema : string) : string :=
  PyRepr.lines
    [ "Genera dati strutturati JSON-LD ottimizzati per SEO utilizzando lo schema "
        +:+ PyRepr.quoted schema +:+ " per questa pagina:";
      "";
      "URL: " +:+ url info;
      "Titolo: " +:+ title info;
      "Meta Description: " +:+ meta_description info;
      "Headings: " +:+ PyRepr.repr_list (map PyRepr.repr_heading (headings info));
      "Immagini: " +:+ PyRepr.repr_list (map PyRepr.repr_image (images info));
      "";
      "Requisiti:";
      "1. Utilizza il formato JSON-LD";
      "2. Includi tutte le proprietà obbligatorie per lo schema " +:+ schema;
      "3. Aggiungi proprietà raccomandate quando possibile";
      "4. Ottimizza per Google Rich Snippets";
      "5. Usa URL assoluti per le immagini";
      "6. Segui le best practice di Schema.org";
      "";
      "Genera un JSON-LD completo e valido." ].

Definition generate_request (info : page_info) (schema : string) : request :=
  Request "gpt-4" (generate_prompt info schema) (2 # 10).

(** The prompt is built before the [try]: a dictionary without [title]
    raises [KeyError] to the caller and no request is issued. *)
Definition generate_structured_data
    (pg : page) (schema_type : string) (custom_schema : option string)
  : service (outcome string) :=
  match pg with
  | PageError _ _ => mret (Raise (KeyError "title"))
  | Page info =>
      response ← create (generate_request info (schema_to_use schema_type custom_schema));
      mret (Return (try_except (r ← response; first_content r)
                               (fun _ => EmptyString)))
  end.

End StructuredDataGenerator.

(** ** The schema catalogue and [main]

    [main] is the Streamlit page; its four button handlers are modelled as
    four operations over the scraper and the generator.  Widgets are inputs
    (the text of a field, the selected option), and what a handler displays
    is what the operation returns: [None] when the handler does nothing. *)

(** [COMMON_STRUCTURED_DATA]: schema type and its label, in the order of the
    dictionary. *)
Definition COMMON_STRUCTURED_DATA : list (string * string) :=
  [ ("Product", "Prodotto");
    ("Article", "Articolo");
    ("LocalBusiness", "Attività Locale");
    ("Organization", "Organizzazione");
    ("Person", "Persona");
    ("Recipe", "Ricetta");
    ("Event", "Evento");
    ("FAQ", "FAQ");
    ("HowTo", "Come Fare");
    ("JobPosting", "Offerta di Lavoro");
    ("Review", "Recensione");
    ("BreadcrumbList", "Breadcrumb");
    ("VideoObject", "Video");
    ("ImageObject", "Immagine");
    ("WebSite", "Sito Web") ].

(** The options of the select box:
    [list(COMMON_STRUCTURED_DATA.keys()) + ['Altro']]. *)
Definition schema_menu : list string :=
  map fst COMMON_STRUCTURED_DATA ++ ["Altro"].

(** [custom_schema] as the page sets it: the text field when the option is
    [Altro], the option itself otherwise. *)
Definition custom_schema_of (schema_option custom_text : string) : string :=
  if String.eqb schema_option "Altro" then custom_text else schema_option.

(** [custom_schema or schema_option != 'Altro'] *)
Definition schema_chosen (schema_option custom_text : string) : bool :=
  PyStr.truthy (custom_schema_of schema_option custom_text)
  || negb (String.eqb schema_option "Altro").

(** The two schema arguments both generation handlers pass:
    [schema_option if schema_option != 'Altro' else custom_schema] and
    [custom_schema if schema_option == 'Altro' else None]. *)
Definition schema_type_arg (schema_option custom_text : string) : string :=
  if negb (String.eqb schema_option "Altro") then schema_option
  else custom_schema_of schema_option custom_text.

Definition custom_schema_arg (schema_option custom_text : string) : option string :=
  if String.eqb schema_option "Altro"
  then Some (custom_schema_of schema_option custom_text)
  else None.

Section Main.

Variable fetch_html : string -> outcome soup.
Variable fetch_xml : string -> outcome xelem.
Variable json_loads : string -> option json.
Variable client : request -> outcome completion.
(** [BeautifulSoup(source_code, 'html.parser')] *)
Variable parse_html : string -> soup.

(** The loop that scrapes each URL and appends the record. *)
Definition scrape_each (urls : list string) : list page :=
  fold_left (fun pages_info url => pages_info ++ [scrape_page fetch_html json_loads url])
            urls [].

(** The handler of the sitemap button: the pages scraped and the
    suggestions. *)
Definition analyze_sitemap (sitemap_url : string) : service (option (list page * json)) :=
  if PyStr.truthy sitemap_url then
    let urls := scrape_sitemap fetch_xml sitemap_url in
    if nonempty urls then
      let pages_info := scrape_each (take 10 urls) in
      suggestions ← suggest_structured_data client json_loads pages_info;
      mret (Some (pages_info, suggestions))
    else mret None
  else mret None.

(** [[url.strip() for url in urls_input.split('\n') if url.strip()]] *)
Definition input_urls (urls_input : string) : list string :=
  map PyStr.strip
      (List.filter (fun url => PyStr.truthy (PyStr.strip url))
                   (PyStr.split_on (ascii_of_nat 10) urls_input)).

(** The handler of the URL-list button. *)
Definition analyze_urls (urls_input : string) : service (option (list page * json)) :=
  if PyStr.truthy urls_input then
    let pages_info := scrape_each (input_urls urls_input) in
    suggestions ← suggest_structured_data client json_loads pages_info;
    mret (Some (pages_info, suggestions))
  else mret None.

(** The handler that generates markup for a URL: [None] when nothing is
    generated. *)
Definition generate_for_url (target_url schema_option custom_text : string)
  : service (outcome (option string)) :=
  if PyStr.truthy target_url && schema_chosen schema_option custom_text then
    let page_info := scrape_page fetch_html json_loads target_url in
    if negb (has_error page_info) then
      structured_data ← generate_structured_data client page_info
                          (schema_type_arg schema_option custom_text)
                          (custom_schema_arg schema_option custom_text);
      mret (s ← structured_data; mret (Some s))
    else mret (Return None)
  else mret (Return None).

(** The headings of pasted source: as in [scrape_page], with 3 per level. *)
Definition source_headings_loop (doc : soup) : list heading :=
  fold_left (fun hs i =>
               fold_left (fun hs h => hs ++ [Heading i (PyStr.strip (get_text h))])
                         (take 3 (find_all ["h" +:+ str_nat i] any_tag doc)) hs)
            (seq 1 6) [].

(** The handler that generates markup for pasted source.  Nothing here is
    inside a [try]: an exception of the title expression reaches the
    caller.  The dictionary has no [links] and no [structured_data] key,
    which the generator does not read. *)
Definition generate_from_source
    (source_code target_url_manual schema_option custom_text : string)
  : service (outcome (option string)) :=
  if PyStr.truthy source_code && schema_chosen schema_option custom_text then
    let doc := parse_html source_code in
    match title_of doc with
    | Raise e => mret (Raise e)
    | Return t =>
        let page_info :=
          Page (PageInfo (if PyStr.truthy target_url_manual then target_url_manual
                          else "https://esempio.com")
                         t (meta_description_of doc) (source_headings_loop doc)
                         [] [] "webpage" []) in
        structured_data ← generate_structured_data client page_info
                            (schema_type_arg schema_option custom_text)
                            (custom_schema_arg schema_option custom_text);
        mret (s ← structured_data; mret (Some s))
    end
  else mret (Return None).

End Main.

(** * Notions used in the statements *)

(** A [loc] element whose text is neither absent nor empty. *)
Definition has_text (e : xelem) : bool :=
  match xtext e with
  | Some t => PyStr.truthy t
  | None => false
  end.

Definition loc_text (e : xelem) : string :=
  match xtext e with
  | Some t => PyStr.strip t
  | None => EmptyString
  end.

(** Every [loc] element of the document, in document order. *)
Definition loc_nodes (root : xelem) : list xelem :=
  List.filter (fun e => String.eqb (xtag e) (qname sitemap_ns "loc")) (xiter root).

Definition leaf (e : xelem) : bool :=
  match xchildren e with [] => true | _ :: _ => false end.

(** A flat sitemap: a [urlset] whose children are [url] elements, each
    holding only childless elements ([loc], [lastmod], ...). *)
Definition flat_sitemap (root : xelem) : bool :=
  String.eqb (xtag root) (qname sitemap_ns "urlset")
  && forallb (fun u => String.eqb (xtag u) (qname sitemap_ns "url")
                       && forallb leaf (xchildren u)) (xchildren root).

Definition space : ascii := ascii_of_nat 32.

Definition class_names (n : node) : list string :=
  match get n "class" with
  | Some v => PyStr.words v
  | None => []
  end.

(** [w] occurs in [c], letter case apart. *)
Definition occurs_nocase (w c : string) : Prop :=
  PyStr.contains (PyStr.lower w) (PyStr.lower c) = true.

(** The words of the pattern are not empty and hold no space. *)
Definition plain_words (r : regex) : bool :=
  forallb (fun w => PyStr.truthy w && negb (Url.has_char space (PyStr.lower w)))
          (alternatives r).

Definition price_re : regex := Alternation ["price"; "prezzo"].
Definition article_re : regex := Alternation ["article"; "post"; "blog"].
Definition event_re : regex := Alternation ["event"; "evento"; "data"].
Definition address_re : regex := Alternation ["address"; "indirizzo"; "contact"].

(** Some tag of the document, named as one of [names], has a class name in
    which a word of the pattern occurs, letter case apart. *)
Definition class_marker (names : list string) (r : regex) (doc : soup) : Prop :=
  exists n c w,
    In n (descendants doc) /\ In (tag_name n) names
    /\ In c (class_names n) /\ In w (alternatives r) /\ occurs_nocase w c.

Definition content_types : list string :=
  ["product"; "article"; "event"; "local_business"; "webpage"].

Definition heading_of (i : nat) (h : node) : heading :=
  Heading i (PyStr.strip (get_text h)).

Definition at_level (L : nat) (h : heading) : bool := Nat.eqb (h_level h) L.

(** An [img] element that passes the test [if src:]. *)
Definition has_src (img : node) : bool :=
  match get img "src" with
  | Some s => PyStr.truthy s
  | None => false
  end.

(** The entry built from an [img] element that has a [src]. *)
Definition image_from (url : string) (img : node) (entry : image) : Prop :=
  exists s, get img "src" = Some s
            /\ Url.urljoin url s = Return (img_src entry)
            /\ img_alt entry = get_default img "alt" EmptyString
            /\ img_title entry = get_default img "title" EmptyString.

(** The dictionaries without [error], in order. *)
Definition page_infos (pages : list page) : list page_info :=
  flat_map (fun pg => match pg with Page info => [info] | PageError _ _ => [] end) pages.

Definition error_free (pg : page) : bool := negb (has_error pg).

(** What the suggestion operation returns for a given answer of the
    service: the parsed content of the first choice, and the empty
    suggestion list when the call, the indexing or the parse raises. *)
Definition suggestions_from
    (json_loads : string -> option json) (answer : outcome completion) : json :=
  match answer with
  | Return (Completion (c :: _)) =>
      match json_loads c with
      | Some j => j
      | None => empty_suggestions
      end
  | Return (Completion []) => empty_suggestions
  | Raise _ => empty_suggestions
  end.

(** The [url] key of a record, present with or without [error]. *)
Definition page_url (pg : page) : string :=
  match pg with
  | Page info => url info
  | PageError u _ => u
  end.

(** The document has a [title] element that has no single string below
    it: it is empty, or has several children. *)
Definition title_without_string (doc : soup) : Prop :=
  exists t, find ["title"] any_tag doc = Some t /\ node_string t = None.

(** One of the first ten [img] elements has a [src] that [urljoin]
    rejects. *)
Definition unjoinable_src (u : string) (doc : soup) : Prop :=
  exists img s e,
    In img (take 10 (find_all ["img"] any_tag doc))
    /\ get img "src" = Some s /\ PyStr.truthy s = true
    /\ Url.urljoin u s = Raise e.

(** The record without what was read from the [ld+json] scripts. *)
Definition without_structured_data (pg : page) : page :=
  match pg with
  | Page info =>
      Page (PageInfo (url info) (title info) (meta_description info) (headings info)
                     (images info) (links info) (content_type info) [])
  | PageError u e => PageError u e
  end.

(** The entry of one [ld+json] script: none when the script has no single
    string or when [json.loads] rejects it. *)
Definition parsed_script (json_loads : string -> option json) (script : node) : option json_ld :=
  match node_string script with
  | Some s =>
      match json_loads s with
      | Some data => Some (JsonLd "json-ld" data)
      | None => None
      end
  | None => None
  end.

Definition ld_json_scripts (doc : soup) : list node :=
  find_all ["script"] (attr_is "type" "application/ld+json") doc.

(** What the summary of a page shows: the URL, the title, the content type
    and the texts of the first three heading entries. *)
Definition summary_view (info : page_info) : string * string * string * list string :=
  (url info, title info, content_type info, map h_text (take 3 (headings info))).

(** What the generation operation returns for a given answer of the
    service: the content of the first choice as it is, and the empty string
    when the call or the indexing raises. *)
Definition markup_from (answer : outcome completion) : string :=
  match answer with
  | Return (Completion (c :: _)) => c
  | Return (Completion []) => EmptyString
  | Raise _ => EmptyString
  end.

(** The schema named in the prompt of both generation handlers. *)
Definition effective_schema (schema_option custom_text : string) : string :=
  if String.eqb schema_option "Altro" then custom_text else schema_option.

(** A string of white space only. *)
Definition blank (s : string) : bool :=
  forallb PyStr.is_space (list_ascii_of_string s).

(** * Sample inputs *)

Definition xloc (text : option string) : xelem := XElem (qname sitemap_ns "loc") text [].
Definition xurl (cs : list xelem) : xelem := XElem (qname sitemap_ns "url") None cs.
Definition xurlset (urls : list xelem) : xelem := XElem (qname sitemap_ns "urlset") None urls.

(** A sitemap with two entries; the first [loc] is empty. *)
Definition sitemap_empty_loc : xelem :=
  xurlset [ xurl [xloc None];
            xurl [xloc (Some " https://x.test/a "); XElem (qname sitemap_ns "lastmod") (Some "2024-01-01") []] ].

(** A page whose only price marker is an [id]. *)
Definition price_id_only : soup :=
  [ Tag "div" {[ "id" := "price" ]} [NavigableString "9.99"] ].

(** A page with seven second-level headings and twelve images. *)
Definition crowded_page : soup :=
  replicate 7 (Tag "h2" ∅ [NavigableString " news "])
  ++ replicate 12 (Tag "img" {[ "src" := "i.png" ]} []).

Definition crowded_info : page_info :=
  PageInfo "https://x.test/p" EmptyString EmptyString
           (replicate 5 (Heading 2 "news"))
           (replicate 10 (Image "https://x.test/i.png" EmptyString EmptyString))
           [] "webpage" [].

(** The tree [html.parser] builds for
    [<title>T</title><meta name=description content=D><h1>H1</h1><img src=/a.png alt=A>]
    (attribute values quoted): [meta] and [img] are void elements, so the
    four elements are siblings. *)
Definition synthetic_page : soup :=
  [ Tag "title" ∅ [NavigableString "T"];
    Tag "meta" {[ "name" := "description"; "content" := "D" ]} [];
    Tag "h1" ∅ [NavigableString "H1"];
    Tag "img" {[ "src" := "/a.png"; "alt" := "A" ]} [] ].

(** A page whose [title] element is present and empty. *)
Definition empty_title_page : soup :=
  [ Tag "title" ∅ []; Tag "h1" ∅ [NavigableString "H1"] ].

(** Ten [img] elements without [src], then one with a [src]. *)
Definition late_src_page : soup :=
  replicate 10 (Tag "img" {[ "alt" := "spacer" ]} [])
  ++ [Tag "img" {[ "src" := "/a.png"; "alt" := "A" ]} []].

Definition plain_page (u : string) : page :=
  Page (PageInfo u "T" EmptyString [Heading 1 "H1"] [] [] "webpage" []).

(** One failed fetch followed by five pages that were extracted. *)
Definition error_first : list page :=
  PageError "https://x.test/0" "404"
  :: map plain_page ["https://x.test/1"; "https://x.test/2"; "https://x.test/3";
                     "https://x.test/4"; "https://x.test/5"].

(** A service that always answers with the same text, and a [json.loads]
    that knows the value of that text. *)
Definition canned_text : string :=
  "{" +:+ PyRepr.quoted "suggestions" +:+ ": [{" +:+ PyRepr.quoted "schema_type" +:+ ": "
      +:+ PyRepr.quoted "WebSite" +:+ "}]}".

Definition canned_value : json :=
  JObject [("suggestions", JArray [JObject [("schema_type", JString "WebSite")]])].

Definition canned_client (_ : request) : outcome completion :=
  Return (Completion [canned_text]).

Definition canned_loads (s : string) : option json :=
  if String.eqb s canned_text then Some canned_value else None.

Definition failing_client (_ : request) : outcome completion :=
  Raise (APIError "Rate limit reached").

(** A page whose headings are not in the order of their levels. *)
Definition mixed_page : soup :=
  [ Tag "h3" ∅ [NavigableString "c"];
    Tag "h1" ∅ [NavigableString "a"];
    Tag "h2" ∅ [Tag "b" ∅ [NavigableString " b "]];
    Tag "h1" ∅ [] ].

Definition mixed_info : page_info :=
  PageInfo "https://x.test/p" EmptyString EmptyString
           [Heading 1 "a"; Heading 1 EmptyString; Heading 2 "b"; Heading 3 "c"]
           [] [] "webpage" [].

(** Six pages that were extracted, the second one after a failed fetch. *)
Definition seven_pages : list page :=
  plain_page "https://x.test/1"
  :: PageError "https://x.test/0" "404"
  :: map plain_page ["https://x.test/2"; "https://x.test/3"; "https://x.test/4";
                     "https://x.test/5"; "https://x.test/6"].

(** The pages of [seven_pages] that reach the prompt, with other headings
    past the third, other descriptions and other images. *)
Definition four_pages_retouched : list page :=
  map (fun u => Page (PageInfo u "T" "described"
                               [Heading 1 "H1"]
                               [Image "https://x.test/i.png" EmptyString EmptyString]
                               [] "webpage" []))
      ["https://x.test/1"; "https://x.test/2"; "https://x.test/3"; "https://x.test/4"].

Definition echo_client (r : request) : outcome completion :=
  Return (Completion [content r; "second choice"]).

(** Two lines of the URL box that hold spaces only. *)
Definition blank_lines : string :=
  "  " +:+ PyRepr.chr10 +:+ " ".

(** * Properties *)

(** ** Library models on examples *)

Example urljoin_root_relative :
  Url.urljoin "https://x.test/p" "/a.png" = Return "https://x.test/a.png".
Proof. vm_compute. reflexivity. Qed.

Example urljoin_relative_dots :
  Url.urljoin "http://a/b/c/d;p?q" "../g" = Return "http://a/b/g".
Proof. vm_compute. reflexivity. Qed.

Example urljoin_absolute :
  Url.urljoin "http://a/b/c/d;p?q" "https://e/f#x" = Return "https://e/f#x".
Proof. vm_compute. reflexivity. Qed.

Example urljoin_query_only :
  Url.urljoin "http://a/b/c/d;p?q" "?y" = Return "http://a/b/c/d;p?y".
Proof. vm_compute. reflexivity. Qed.

Example urljoin_bad_bracket :
  Url.urljoin "http://a/b" "//[x/" = Raise (ValueError "Invalid IPv6 URL").
Proof. vm_compute. reflexivity. Qed.

Example repr_plain : PyRepr.repr_str "H1" = "'H1'".
Proof. reflexivity. Qed.

Example repr_with_single_quote : PyRepr.repr_str "l'arte" = PyRepr.quoted "l'arte".
Proof. reflexivity. Qed.

Example repr_heading_dict :
  PyRepr.repr_list (map PyRepr.repr_heading [Heading 1 "H1"; Heading 2 "a"])
  = "[{'level': 1, 'text': 'H1'}, {'level': 2, 'text': 'a'}]".
Proof. reflexivity. Qed.

(** ** Loops that append to an accumulator *)

Section Loops.
Context {A B : Type}.

(** A loop whose body appends [g x] to the accumulator builds the
    accumulator followed by the concatenation of the [g x]. *)
Lemma fold_left_append (body : list B -> A -> list B) (g : A -> list B) :
  (forall acc x, body acc x = acc ++ g x) ->
  forall l acc, fold_left body l acc = acc ++ flat_map g l.
Proof.
  intros Hbody l. induction l as [|x l IH]; intros acc; simpl.
  - now rewrite app_nil_r.
  - rewrite IH, Hbody. now rewrite <- app_assoc.
Qed.

Lemma flat_map_filter_map (keep : A -> bool) (f : A -> B) (l : list A) :
  flat_map (fun x => if keep x then [f x] else []) l = map f (List.filter keep l).
Proof.
  induction l as [|x l IH]; simpl; [reflexivity|].
  destruct (keep x); simpl; now rewrite IH.
Qed.

Lemma nonempty_filter (keep : A -> bool) (l : list A) :
  nonempty (List.filter keep l) = existsb keep l.
Proof.
  induction l as [|x l IH]; simpl; [reflexivity|].
  destruct (keep x); simpl; [reflexivity | exact IH].
Qed.

Lemma filter_length_take (keep : A -> bool) (n : nat) (l : list A) :
  length (List.filter keep (take n l)) <= n.
Proof.
  etransitivity; [apply List.filter_length_le|].
  rewrite length_take. lia.
Qed.
End Loops.

(** ** The sitemap resolver *)

Lemma sitemap_loop_spec (locs : list xelem) :
  sitemap_loop locs = map loc_text (List.filter has_text locs).
Proof.
  unfold sitemap_loop.
  rewrite (fold_left_append _ (fun loc => if has_text loc then [loc_text loc] else [])).
  - apply flat_map_filter_map.
  - intros acc loc. unfold has_text, loc_text.
    destruct (xtext loc) as [t|]; [destruct (PyStr.truthy t)|]; simpl;
      now rewrite ?app_nil_r.
Qed.

Lemma xiter_leaves (cs : list xelem) :
  forallb leaf cs = true -> flat_map xiter cs = cs.
Proof.
  induction cs as [|[t x gs] cs IH]; simpl; [reflexivity|].
  intros [Hleaf Hcs]%andb_prop. unfold leaf in Hleaf. simpl in Hleaf.
  destruct gs; [|discriminate]. simpl. now rewrite IH.
Qed.

Lemma select_children_leaves (tag : string) (cs : list xelem) :
  forallb leaf cs = true -> select_children tag cs = [].
Proof.
  induction cs as [|[t x gs] cs IH]; simpl; [reflexivity|].
  intros [Hleaf Hcs]%andb_prop. unfold leaf in Hleaf. simpl in Hleaf.
  destruct gs; [|discriminate]. simpl. now apply IH.
Qed.

Lemma select_children_app (tag : string) (l1 l2 : list xelem) :
  select_children tag (l1 ++ l2) = select_children tag l1 ++ select_children tag l2.
Proof. unfold select_children. apply flat_map_app. Qed.

Lemma forallb_filter {A} (p q : A -> bool) (l : list A) :
  forallb p l = true -> forallb p (List.filter q l) = true.
Proof.
  induction l as [|x l IH]; simpl; [reflexivity|].
  intros [Hx Hl]%andb_prop. destruct (q x); simpl; [rewrite Hx|]; auto.
Qed.

Lemma findall_flat_sitemap (root : xelem) :
  flat_sitemap root = true -> findall_url_loc root = loc_nodes root.
Proof.
  destruct root as [t x urls]. unfold flat_sitemap, findall_url_loc, loc_nodes. simpl.
  intros [Htag Hurls]%andb_prop.
  apply String.eqb_eq in Htag. subst t.
  replace (String.eqb (qname sitemap_ns "urlset") (qname sitemap_ns "loc")) with false
    by (vm_compute; reflexivity).
  rewrite app_nil_r.
  induction urls as [|[ut utext ucs] urls IH]; simpl; [reflexivity|].
  simpl in Hurls. apply andb_prop in Hurls as [[Hu Hleaves]%andb_prop Hrest].
  apply String.eqb_eq in Hu. subst ut.
  replace (String.eqb (qname sitemap_ns "url") (qname sitemap_ns "url")) with true
    by (vm_compute; reflexivity).
  replace (String.eqb (qname sitemap_ns "url") (qname sitemap_ns "loc")) with false
    by (vm_compute; reflexivity).
  rewrite (xiter_leaves ucs Hleaves).
  rewrite !List.filter_app. simpl.
  rewrite select_children_app, (IH Hrest).
  rewrite (select_children_leaves _ (List.filter _ ucs)) by (now apply forallb_filter).
  reflexivity.
Qed.

(** C6, as stated, fails: the document below is a flat sitemap with two
    [loc] nodes, and the resolver returns one URL, since a [loc] without
    text is skipped. *)
Lemma scrape_sitemap_skips_empty_loc :
  flat_sitemap sitemap_empty_loc = true
  /\ length (loc_nodes sitemap_empty_loc) = 2
  /\ scrape_sitemap (fun _ => Return sitemap_empty_loc) "https://x.test/sitemap.xml"
     = ["https://x.test/a"].
Proof. vm_compute. repeat split. Qed.

(** C6 (amended): for every sitemap document that is fetched and parsed,
    the resolver returns [min(50, n)] URLs, where [n] counts the [url/loc]
    nodes under the sitemap namespace that carry a non-empty text; the URLs
    are the trimmed texts of those nodes, in the order [findall] yields
    them, which for a flat sitemap is the document order of its [loc]
    nodes. *)
Theorem scrape_sitemap_resolves (fetch_xml : string -> outcome xelem) (u : string) (root : xelem) :
  fetch_xml u = Return root ->
  let found := List.filter has_text (findall_url_loc root) in
  scrape_sitemap fetch_xml u = take 50 (map loc_text found)
  /\ length (scrape_sitemap fetch_xml u) = Nat.min 50 (length found)
  /\ (forall i e, i < 50 -> found !! i = Some e ->
        scrape_sitemap fetch_xml u !! i = Some (loc_text e))
  /\ (flat_sitemap root = true -> found = List.filter has_text (loc_nodes root)).
Proof.
  intros Hfetch found.
  assert (Hrun : scrape_sitemap fetch_xml u = take 50 (map loc_text found)).
  { unfold scrape_sitemap. rewrite Hfetch. simpl. now rewrite sitemap_loop_spec. }
  rewrite Hrun. split; [reflexivity|]. split; [|split].
  - now rewrite length_take, length_map.
  - intros i e Hi He. rewrite lookup_take_lt by exact Hi.
    now rewrite list_lookup_fmap, He.
  - intros Hflat. unfold found. now rewrite findall_flat_sitemap.
Qed.

Lemma scrape_sitemap_resolves_witness :
  let fetch := fun _ : string => Return sitemap_empty_loc in
  let found := List.filter has_text (findall_url_loc sitemap_empty_loc) in
  scrape_sitemap fetch "https://x.test/sitemap.xml" = take 50 (map loc_text found)
  /\ length (scrape_sitemap fetch "https://x.test/sitemap.xml") = Nat.min 50 (length found)
  /\ (forall i e, i < 50 -> found !! i = Some e ->
        scrape_sitemap fetch "https://x.test/sitemap.xml" !! i = Some (loc_text e))
  /\ (flat_sitemap sitemap_empty_loc = true -> found = List.filter has_text (loc_nodes sitemap_empty_loc)).
Proof.
  exact (scrape_sitemap_resolves (fun _ => Return sitemap_empty_loc)
           "https://x.test/sitemap.xml" sitemap_empty_loc eq_refl).
Defined.

(** ** The content-type classifier *)

Lemma startswith_before (sp : ascii) (w a b : string) :
  Url.has_char sp w = false ->
  PyStr.startswith w (a +:+ String sp b) = true -> PyStr.startswith w a = true.
Proof.
  revert a. induction w as [|c w IH]; intros a Hfree; [reflexivity|].
  unfold Url.has_char in Hfree. simpl in Hfree.
  apply orb_false_elim in Hfree as [Hc Hw].
  destruct a as [|x a].
  - change (EmptyString +:+ String sp b) with (String sp b). simpl.
    rewrite Ascii.eqb_sym, Hc. discriminate.
  - change (String x a +:+ String sp b) with (String x (a +:+ String sp b)). simpl.
    destruct (Ascii.eqb c x); [|discriminate]. now apply IH.
Qed.

Lemma contains_empty (hay : string) : PyStr.contains EmptyString hay = true.
Proof. now destruct hay. Qed.

Lemma contains_around (sp : ascii) (w a b : string) :
  Url.has_char sp w = false ->
  PyStr.contains w (a +:+ String sp b) = true ->
  PyStr.contains w a = true \/ PyStr.contains w b = true.
Proof.
  intros Hfree. induction a as [|x a IH].
  - change (EmptyString +:+ String sp b) with (String sp b). simpl.
    intros [Hstart|Hb]%orb_prop; [|now right].
    left. destruct w as [|c w]; [reflexivity|].
    unfold Url.has_char in Hfree. simpl in Hfree, Hstart.
    apply orb_false_elim in Hfree as [Hc _].
    rewrite Ascii.eqb_sym, Hc in Hstart. discriminate.
  - change (String x a +:+ String sp b) with (String x (a +:+ String sp b)).
    intros H. simpl in H. apply orb_prop in H as [Hstart|Hrest].
    + left. simpl. apply orb_true_intro. left.
      apply (startswith_before sp w (String x a) b Hfree).
      exact Hstart.
    + destruct (IH Hrest) as [Ha|Hb]; [left|now right].
      simpl. apply orb_true_intro. now right.
Qed.

Lemma lower_app (a b : string) : PyStr.lower (a +:+ b) = PyStr.lower a +:+ PyStr.lower b.
Proof.
  induction a as [|x a IH]; [reflexivity|].
  change (String x a +:+ b) with (String x (a +:+ b)). simpl. now rewrite IH.
Qed.

Lemma contains_join (w : string) (cs : list string) :
  Url.has_char space w = false ->
  PyStr.contains w (PyStr.lower (PyStr.join " " cs)) = true ->
  w = EmptyString \/ exists c, In c cs /\ PyStr.contains w (PyStr.lower c) = true.
Proof.
  intros Hfree. induction cs as [|c cs IH].
  - simpl. destruct w; [now left | discriminate].
  - destruct cs as [|c' cs].
    + simpl. intros H. right. exists c. split; [now left | exact H].
    + change (PyStr.join " " (c :: c' :: cs)) with (c +:+ " " +:+ PyStr.join " " (c' :: cs)).
      rewrite lower_app.
      change (PyStr.lower (" " +:+ PyStr.join " " (c' :: cs)))
        with (String space (PyStr.lower (PyStr.join " " (c' :: cs)))).
      intros [Hc|Hrest]%(contains_around space w _ _ Hfree).
      * right. exists c. split; [now left | exact Hc].
      * destruct (IH Hrest) as [->|(d & Hin & Hd)]; [now left|].
        right. exists d. split; [now right | exact Hd].
Qed.

Lemma mem_In (x : string) (l : list string) : Url.mem x l = true <-> In x l.
Proof.
  unfold Url.mem. rewrite existsb_exists. split.
  - intros (y & Hin & ->%String.eqb_eq). exact Hin.
  - intros Hin. exists x. split; [exact Hin | apply String.eqb_refl].
Qed.

Lemma re_search_spec (r : regex) (s : string) :
  re_search r s = true <-> exists w, In w (alternatives r) /\ occurs_nocase w s.
Proof. unfold re_search, occurs_nocase. apply existsb_exists. Qed.

Lemma class_matches_spec (r : regex) (n : node) :
  plain_words r = true ->
  class_matches r n = true
  <-> exists c w, In c (class_names n) /\ In w (alternatives r) /\ occurs_nocase w c.
Proof.
  intros Hplain. unfold class_matches, class_names.
  destruct (get n "class") as [v|]; [|split; [discriminate | intros (c & _ & [] & _)]].
  rewrite orb_true_iff, existsb_exists. split.
  - intros [(c & Hc & (w & Hw & Hocc)%re_search_spec) | (w & Hw & Hocc)%re_search_spec].
    + now exists c, w.
    + unfold plain_words in Hplain. rewrite forallb_forall in Hplain.
      apply Hplain in Hw as Hok. apply andb_prop in Hok as [Hne Hfree].
      apply negb_true_iff in Hfree.
      destruct (contains_join _ _ Hfree Hocc) as [Hempty | (c & Hc & Hin)].
      * destruct w; [discriminate Hne | discriminate Hempty].
      * now exists c, w.
  - intros (c & w & Hc & Hw & Hocc). left. exists c. split; [exact Hc|].
    apply re_search_spec. now exists w.
Qed.

Lemma find_all_class_marker (names : list string) (r : regex) (doc : soup) :
  plain_words r = true ->
  nonempty (find_all names (class_matches r) doc) = true <-> class_marker names r doc.
Proof.
  intros Hplain. unfold find_all, class_marker.
  rewrite nonempty_filter, existsb_exists. split.
  - intros (n & Hn & [Hname (c & w & H)%(class_matches_spec r n Hplain)]%andb_prop).
    exists n, c, w. rewrite <- mem_In. tauto.
  - intros (n & c & w & Hn & Hname & H). exists n. split; [exact Hn|].
    apply andb_true_intro. split; [now apply mem_In|].
    apply (class_matches_spec r n Hplain). now exists c, w.
Qed.

Lemma find_all_no_class_marker (names : list string) (r : regex) (doc : soup) :
  plain_words r = true ->
  nonempty (find_all names (class_matches r) doc) = false <-> ~ class_marker names r doc.
Proof.
  intros Hplain. rewrite <- (find_all_class_marker names r doc Hplain).
  destruct (nonempty _); split; congruence.
Qed.

(** C5 (amended): the classifier is total into the five fixed values and
    tries its rules in a fixed order, the first match winning; a rule
    matches when a [div] or [span] element (an [article] or [div] element
    for the article rule) has a class name in which one of the rule's words
    occurs, letter case apart.  So a page with a price class classifies as
    [product] whatever else it holds, a page with an address class and no
    price, article or event class as [local_business], and a page with none
    of the four as [webpage].  Attributes other than [class] are not
    examined. *)
Theorem detect_content_type_priority (doc : soup) :
  In (_detect_content_type doc) content_types
  /\ (class_marker ["div"; "span"] price_re doc -> _detect_content_type doc = "product")
  /\ (~ class_marker ["div"; "span"] price_re doc ->
      class_marker ["article"; "div"] article_re doc -> _detect_content_type doc = "article")
  /\ (~ class_marker ["div"; "span"] price_re doc ->
      ~ class_marker ["article"; "div"] article_re doc ->
      class_marker ["div"; "span"] event_re doc -> _detect_content_type doc = "event")
  /\ (~ class_marker ["div"; "span"] price_re doc ->
      ~ class_marker ["article"; "div"] article_re doc ->
      ~ class_marker ["div"; "span"] event_re doc ->
      class_marker ["div"; "span"] address_re doc -> _detect_content_type doc = "local_business")
  /\ (~ class_marker ["div"; "span"] price_re doc ->
      ~ class_marker ["article"; "div"] article_re doc ->
      ~ class_marker ["div"; "span"] event_re doc ->
      ~ class_marker ["div"; "span"] address_re doc -> _detect_content_type doc = "webpage").
Proof.
  unfold _detect_content_type, content_types.
  fold price_re article_re event_re address_re.
  destruct (nonempty (find_all ["div"; "span"] (class_matches price_re) doc)) eqn:Hp;
    [apply find_all_class_marker in Hp | apply find_all_no_class_marker in Hp];
    try reflexivity.
  { simpl. intuition. }
  destruct (nonempty (find_all ["article"; "div"] (class_matches article_re) doc)) eqn:Ha;
    [apply find_all_class_marker in Ha | apply find_all_no_class_marker in Ha];
    try reflexivity.
  { simpl. intuition. }
  destruct (nonempty (find_all ["div"; "span"] (class_matches event_re) doc)) eqn:He;
    [apply find_all_class_marker in He | apply find_all_no_class_marker in He];
    try reflexivity.
  { simpl. intuition. }
  destruct (nonempty (find_all ["div"; "span"] (class_matches address_re) doc)) eqn:Hd;
    [apply find_all_class_marker in Hd | apply find_all_no_class_marker in Hd];
    try reflexivity.
  { simpl. intuition. }
  simpl. intuition.
Qed.

(** C5, as stated, fails for a marker carried by an [id]: the classifier
    looks at [class] only, and the page below is a [webpage]. *)
Lemma detect_content_type_ignores_id :
  (exists n, In n (descendants price_id_only) /\ get n "id" = Some "price")
  /\ _detect_content_type price_id_only = "webpage".
Proof.
  split; [|vm_compute; reflexivity].
  eexists. split; [left; reflexivity|]. vm_compute. reflexivity.
Qed.

Example detect_price_only :
  _detect_content_type [Tag "span" {[ "class" := "big Price-tag" ]} []] = "product".
Proof. vm_compute. reflexivity. Qed.

Example detect_address_only :
  _detect_content_type [Tag "div" {[ "class" := "footer-address" ]} []] = "local_business".
Proof. vm_compute. reflexivity. Qed.

Example detect_price_and_address :
  _detect_content_type
    [Tag "div" {[ "class" := "address" ]} [Tag "span" {[ "class" := "prezzo" ]} []]]
  = "product".
Proof. vm_compute. reflexivity. Qed.

Example detect_price_on_paragraph :
  _detect_content_type [Tag "p" {[ "class" := "price" ]} []] = "webpage".
Proof. vm_compute. reflexivity. Qed.

(** ** Extraction of one page *)

Lemma headings_loop_spec (doc : soup) :
  headings_loop doc
  = flat_map (fun i => map (heading_of i) (take 5 (find_all ["h" +:+ str_nat i] any_tag doc)))
             (seq 1 6).
Proof.
  unfold headings_loop.
  rewrite (fold_left_append _
             (fun i => map (heading_of i) (take 5 (find_all ["h" +:+ str_nat i] any_tag doc)))).
  - reflexivity.
  - intros acc i.
    rewrite (fold_left_append _ (fun h => [heading_of i h])) by reflexivity.
    f_equal.
Qed.

Section HeadingCaps.
Variable found : nat -> list node.
Variable L : nat.

Let level_block (i : nat) : list heading := map (heading_of i) (take 5 (found i)).

Lemma level_block_other (i : nat) :
  i <> L -> List.filter (at_level L) (level_block i) = [].
Proof.
  intros Hne. unfold level_block.
  induction (take 5 (found i)) as [|h hs IH]; simpl; [reflexivity|].
  unfold at_level at 1. simpl. now apply Nat.eqb_neq in Hne as ->.
Qed.

Lemma level_block_cap (i : nat) :
  length (List.filter (at_level L) (level_block i)) <= 5.
Proof.
  etransitivity; [apply List.filter_length_le|].
  unfold level_block. rewrite length_map, length_take. lia.
Qed.

Lemma levels_absent (ls : list nat) :
  ~ In L ls -> List.filter (at_level L) (flat_map level_block ls) = [].
Proof.
  induction ls as [|i ls IH]; simpl; [reflexivity|].
  intros Hnot. rewrite List.filter_app, level_block_other, IH; tauto.
Qed.

Lemma levels_cap (ls : list nat) :
  List.NoDup ls -> length (List.filter (at_level L) (flat_map level_block ls)) <= 5.
Proof.
  induction 1 as [|i ls Hnotin Hnodup IH]; simpl; [lia|].
  rewrite List.filter_app, length_app.
  destruct (Nat.eq_dec i L) as [->|Hne].
  - rewrite (levels_absent ls Hnotin). simpl. pose proof (level_block_cap L). lia.
  - rewrite (level_block_other i Hne). simpl. exact IH.
Qed.
End HeadingCaps.

Lemma headings_loop_cap (doc : soup) (L : nat) :
  length (List.filter (at_level L) (headings_loop doc)) <= 5.
Proof.
  rewrite headings_loop_spec.
  apply (levels_cap (fun i => find_all ["h" +:+ str_nat i] any_tag doc)).
  apply List.seq_NoDup.
Qed.

Lemma image_loop_spec (url : string) (els : list node) :
  forall acc out,
    for_each (image_step url) els acc = Return out ->
    exists new, out = acc ++ new /\ Forall2 (image_from url) (List.filter has_src els) new.
Proof.
  induction els as [|img els IH]; simpl; intros acc out Hrun.
  - injection Hrun as <-. exists []. split; [now rewrite app_nil_r | constructor].
  - unfold mbind, outcome_bind in Hrun.
    destruct (image_step url acc img) as [acc'|e] eqn:Hstep; [|discriminate].
    apply IH in Hrun as (new & -> & Hnew).
    unfold image_step, has_src in *.
    destruct (get img "src") as [s|] eqn:Hsrc.
    + destruct (PyStr.truthy s) eqn:Hs.
      * unfold mbind, outcome_bind in Hstep.
        destruct (Url.urljoin url s) as [abs|e] eqn:Hjoin; [|discriminate].
        injection Hstep as <-. eexists. split; [now rewrite <- app_assoc|].
        constructor; [|exact Hnew]. exists s. simpl. auto.
      * injection Hstep as <-. now exists new.
    + injection Hstep as <-. now exists new.
Qed.

Lemma images_loop_spec (url : string) (doc : soup) (imgs : list image) :
  images_loop url doc = Return imgs ->
  Forall2 (image_from url) (List.filter has_src (take 10 (find_all ["img"] any_tag doc))) imgs.
Proof.
  intros Hrun. apply (image_loop_spec url _ [] imgs) in Hrun as (new & -> & Hnew).
  exact Hnew.
Qed.

(** What a successful [scrape_page] went through. *)
Lemma scrape_page_ok
    (fetch_html : string -> outcome soup) (json_loads : string -> option json)
    (u : string) (info : page_info) :
  scrape_page fetch_html json_loads u = Page info ->
  exists doc t imgs,
    fetch_html u = Return doc
    /\ title_of doc = Return t
    /\ images_loop u doc = Return imgs
    /\ info = PageInfo u t (meta_description_of doc) (headings_loop doc) imgs []
                       (_detect_content_type doc)
                       (_extract_existing_structured_data json_loads doc).
Proof.
  unfold scrape_page, try_except, mbind, outcome_bind, mret, outcome_ret.
  destruct (fetch_html u) as [doc|e] eqn:Hdoc; [|discriminate].
  destruct (title_of doc) as [t|e] eqn:Ht; [|discriminate].
  destruct (images_loop u doc) as [imgs|e] eqn:Himgs; [|discriminate].
  intros [= <-]. now exists doc, t, imgs.
Qed.

(** C8: a page signal produced by the extraction holds at most 5 heading
    entries for each level from 1 to 6 and at most 10 image entries. *)
Theorem scrape_page_caps
    (fetch_html : string -> outcome soup) (json_loads : string -> option json)
    (u : string) (info : page_info) :
  scrape_page fetch_html json_loads u = Page info ->
  (forall L, 1 <= L <= 6 -> length (List.filter (at_level L) (headings info)) <= 5)
  /\ length (images info) <= 10.
Proof.
  intros (doc & t & imgs & _ & _ & Himgs & ->)%scrape_page_ok. simpl. split.
  - intros L _. apply headings_loop_cap.
  - apply images_loop_spec, Forall2_length in Himgs. rewrite <- Himgs.
    apply filter_length_take.
Qed.

Lemma scrape_page_caps_witness :
  scrape_page (fun _ => Return crowded_page) (fun _ => None) "https://x.test/p"
  = Page crowded_info
  /\ (forall L, 1 <= L <= 6 -> length (List.filter (at_level L) (headings crowded_info)) <= 5)
  /\ length (images crowded_info) <= 10.
Proof.
  split; [vm_compute; reflexivity|].
  apply (scrape_page_caps (fun _ => Return crowded_page) (fun _ => None) "https://x.test/p").
  vm_compute. reflexivity.
Defined.

(** C9: extracting the synthetic document at [https://x.test/p] yields the
    title [T], the meta description [D], the single heading [(1, H1)] and
    the single image [(https://x.test/a.png, A, empty title)]. *)
Theorem scrape_page_synthetic (json_loads : string -> option json) :
  scrape_page (fun _ => Return synthetic_page) json_loads "https://x.test/p"
  = Page {| url := "https://x.test/p";
            title := "T";
            meta_description := "D";
            headings := [Heading 1 "H1"];
            images := [Image "https://x.test/a.png" "A" EmptyString];
            links := [];
            content_type := "webpage";
            structured_data := [] |}.
Proof. vm_compute. reflexivity. Qed.

(** C4: on a fetched document whose [title] element is empty, [tag.string]
    is [None] and [.strip()] raises inside the [try]: the result is the
    failure record, not a page signal with an empty title. *)
Theorem scrape_page_empty_title (json_loads : string -> option json) (u : string) :
  scrape_page (fun _ => Return empty_title_page) json_loads u
  = PageError u "'NoneType' object has no attribute 'strip'".
Proof. reflexivity. Qed.

Example scrape_page_bad_src (json_loads : string -> option json) :
  scrape_page (fun _ => Return [Tag "img" {[ "src" := "//[" ]} []]) json_loads "https://x.test/p"
  = PageError "https://x.test/p" "Invalid IPv6 URL".
Proof. vm_compute. reflexivity. Qed.

Example scrape_page_not_found (json_loads : string -> option json) (u : string) :
  scrape_page (fun _ => Raise (RequestException "404 Client Error")) json_loads u
  = PageError u "404 Client Error".
Proof. reflexivity. Qed.

Example scrape_page_no_title (json_loads : string -> option json) (u : string) :
  scrape_page (fun _ => Return [Tag "h1" ∅ [NavigableString "H1"]]) json_loads u
  = Page (PageInfo u EmptyString EmptyString [Heading 1 "H1"] [] [] "webpage" []).
Proof. vm_compute. reflexivity. Qed.

(** C2 (amended): the image entries are built from the first 10 [img]
    elements of the document, in document order; among those ten, an
    element with no [src] (or an empty one) is left out, the others give one
    entry each.  So there are at most 10 entries, exactly as many as there
    are [src]-bearing elements among the first ten [img] elements. *)
Theorem scrape_page_images
    (fetch_html : string -> outcome soup) (json_loads : string -> option json)
    (u : string) (doc : soup) (info : page_info) :
  fetch_html u = Return doc ->
  scrape_page fetch_html json_loads u = Page info ->
  let kept := List.filter has_src (take 10 (find_all ["img"] any_tag doc)) in
  Forall2 (image_from u) kept (images info)
  /\ length (images info) = length kept
  /\ length (images info) <= 10.
Proof.
  intros Hdoc (doc' & t & imgs & Hdoc' & _ & Himgs & ->)%scrape_page_ok kept.
  rewrite Hdoc in Hdoc'. injection Hdoc' as <-. simpl.
  apply images_loop_spec in Himgs. fold kept in Himgs.
  pose proof (Forall2_length _ _ _ Himgs) as Hlen.
  split; [exact Himgs|]. split; [now symmetry|].
  rewrite <- Hlen. apply filter_length_take.
Qed.

(** C2, as stated, fails: the ten elements without [src] use up the cap,
    and the image that has a [src] is not reported. *)
Lemma scrape_page_late_src_dropped :
  List.filter has_src (find_all ["img"] any_tag late_src_page)
  = [Tag "img" {[ "src" := "/a.png"; "alt" := "A" ]} []]
  /\ scrape_page (fun _ => Return late_src_page) (fun _ => None) "https://x.test/p"
     = Page (PageInfo "https://x.test/p" EmptyString EmptyString [] [] [] "webpage" []).
Proof. split; vm_compute; reflexivity. Qed.

Lemma scrape_page_images_witness :
  let kept := List.filter has_src (take 10 (find_all ["img"] any_tag crowded_page)) in
  Forall2 (image_from "https://x.test/p") kept (images crowded_info)
  /\ length (images crowded_info) = length kept
  /\ length (images crowded_info) <= 10.
Proof.
  apply (scrape_page_images (fun _ => Return crowded_page) (fun _ => None)
           "https://x.test/p" crowded_page crowded_info).
  - reflexivity.
  - vm_compute. reflexivity.
Defined.

(** ** The suggestion prompt *)

Lemma page_infos_length (pages : list page) :
  length (page_infos pages) = length (List.filter error_free pages).
Proof.
  induction pages as [|[info|u e] pages IH]; simpl; [reflexivity| |exact IH].
  now rewrite IH.
Qed.

Lemma pages_summary_spec (pages_info : list page) :
  pages_summary pages_info = map summary (page_infos (take 5 pages_info)).
Proof.
  unfold pages_summary, page_infos.
  rewrite (fold_left_append _
             (fun pg => match pg with Page info => [summary info] | PageError _ _ => [] end)).
  - simpl. induction (take 5 pages_info) as [|[info|u e] ps IH]; simpl;
      [reflexivity | now rewrite IH | exact IH].
  - intros acc [info|u e]; [reflexivity | now rewrite app_nil_r].
Qed.

(** C1 (amended): the cap comes first.  The page summaries of the prompt are
    those of the error-free signals among the first 5 signals of the input,
    in order: as many as there are error-free signals among those five, so
    at most 5, and 5 exactly when the first five signals are all
    error-free. *)
Theorem suggest_caps_then_filters
    (client : request -> outcome completion) (json_loads : string -> option json)
    (pages_info : list page) :
  pages_summary pages_info = map summary (page_infos (take 5 pages_info))
  /\ snd (run (suggest_structured_data client json_loads pages_info))
     = [Request "gpt-4" (suggest_prompt (pages_summary pages_info)) (3 # 10)]
  /\ length (pages_summary pages_info) = length (List.filter error_free (take 5 pages_info))
  /\ length (pages_summary pages_info) <= 5
  /\ (5 <= length pages_info -> forallb error_free (take 5 pages_info) = true ->
      length (pages_summary pages_info) = 5).
Proof.
  assert (Hlen : length (pages_summary pages_info)
                 = length (List.filter error_free (take 5 pages_info))).
  { now rewrite pages_summary_spec, length_map, page_infos_length. }
  split; [apply pages_summary_spec|]. split; [reflexivity|].
  split; [exact Hlen|]. rewrite Hlen. split.
  - apply filter_length_take.
  - intros Hfive Hall. rewrite List.forallb_filter_id by exact Hall.
    rewrite length_take. lia.
Qed.

(** C1, as stated, fails: the input holds five error-free signals, and the
    prompt is built from four summaries, the signal with the error having
    used one of the five places. *)
Lemma suggest_error_uses_a_place :
  length (List.filter error_free error_first) = 5
  /\ pages_summary error_first
     = map summary (page_infos (map plain_page ["https://x.test/1"; "https://x.test/2";
                                                  "https://x.test/3"; "https://x.test/4"]))
  /\ length (pages_summary error_first) = 4.
Proof. repeat split. Qed.

(** C3 (amended): applied to an empty sequence, the operation still issues
    one request, whose prompt holds no page summary, and returns what the
    service answers: the parsed suggestions, or the empty suggestion
    sequence when the call or the parse fails. *)
Theorem suggest_empty_input
    (client : request -> outcome completion) (json_loads : string -> option json) :
  pages_summary [] = []
  /\ run (suggest_structured_data client json_loads [])
     = (suggestions_from json_loads (client (Request "gpt-4" (suggest_prompt []) (3 # 10))),
        [Request "gpt-4" (suggest_prompt []) (3 # 10)]).
Proof.
  split; [reflexivity|].
  unfold run, suggest_structured_data, suggest_request, create, mbind, service_bind,
    mret, service_ret. simpl.
  destruct (client _) as [[[|c cs]]|e]; simpl; try reflexivity.
  unfold loads. now destruct (json_loads c).
Qed.

(** C3, as stated, fails: with no page at all a request is issued, and the
    suggestions of the answer are returned. *)
Lemma suggest_empty_contacts_service :
  run (suggest_structured_data canned_client canned_loads [])
  = (canned_value, [Request "gpt-4" (suggest_prompt []) (3 # 10)]).
Proof. vm_compute. reflexivity. Qed.

(** ** The generation prompt *)

(** C7: whenever a request issued by the generation operation fails with an
    exception, the operation returns the empty string, and raises
    nothing. *)
Theorem generate_service_failure
    (client : request -> outcome completion)
    (pg : page) (schema_type : string) (custom_schema : option string) :
  let call := run (generate_structured_data client pg schema_type custom_schema) in
  (exists req e, In req (snd call) /\ client req = Raise e) ->
  fst call = Return EmptyString.
Proof.
  destruct pg as [info|u err]; unfold run; simpl.
  - unfold mbind, service_bind, create, mret, service_ret. simpl.
    intros (req & e & [<-|[]] & Hfail). now rewrite Hfail.
  - unfold mret, service_ret. simpl. intros (req & e & [] & _).
Qed.

Lemma generate_service_failure_witness :
  let call := run (generate_structured_data failing_client (Page crowded_info) "Product" None) in
  (exists req e, In req (snd call) /\ failing_client req = Raise e)
  /\ fst call = Return EmptyString.
Proof.
  assert (Hfail : exists req e,
             In req (snd (run (generate_structured_data failing_client (Page crowded_info)
                                 "Product" None)))
             /\ failing_client req = Raise e).
  { exists (generate_request crowded_info "Product"), (APIError "Rate limit reached").
    split; [left; reflexivity | reflexivity]. }
  split; [exact Hfail|].
  exact (generate_service_failure failing_client (Page crowded_info) "Product" None Hfail).
Defined.

Example generate_without_title (client : request -> outcome completion) :
  run (generate_structured_data client (PageError "https://x.test/p" "404") "Product" None)
  = (Raise (KeyError "title"), []).
Proof. reflexivity. Qed.

Lemma string_app_assoc (a b c : string) : (a +:+ b) +:+ c = a +:+ (b +:+ c).
Proof.
  induction a as [|x a IH]; [reflexivity|].
  change (String x ((a +:+ b) +:+ c) = String x (a +:+ (b +:+ c))). now rewrite IH.
Qed.

Lemma lines_cons (l : string) (ls : list string) :
  ls <> [] -> PyRepr.lines (l :: ls) = l +:+ PyRepr.chr10 +:+ PyRepr.lines ls.
Proof. destruct ls; [congruence | reflexivity]. Qed.

(** C10: an empty custom schema does not override the schema type: for
    every page signal the call behaves as the call without a custom schema,
    and for a page signal without error the request it issues carries the
    prompt built for [schema_type], which names that type between double
    quotes. *)
Theorem generate_empty_custom_schema
    (client : request -> outcome completion)
    (pg : page) (info : page_info) (schema_type : string) :
  schema_to_use schema_type (Some EmptyString) = schema_type
  /\ run (generate_structured_data client pg schema_type (Some EmptyString))
     = run (generate_structured_data client pg schema_type None)
  /\ snd (run (generate_structured_data client (Page info) schema_type (Some EmptyString)))
     = [Request "gpt-4" (generate_prompt info schema_type) (2 # 10)]
  /\ exists rest,
       generate_prompt info schema_type
       = "Genera dati strutturati JSON-LD ottimizzati per SEO utilizzando lo schema "
         +:+ PyRepr.quoted schema_type +:+ rest.
Proof.
  split; [reflexivity|]. split; [now destruct pg|]. split; [reflexivity|].
  unfold generate_prompt. rewrite lines_cons by discriminate.
  eexists. rewrite !string_app_assoc. reflexivity.
Qed.

Example generate_custom_schema_overrides :
  schema_to_use "Product" (Some "Recipe") = "Recipe".
Proof. reflexivity. Qed.

(** ** Failure modes of the extraction *)

Lemma title_of_raises (doc : soup) :
  (exists e, title_of doc = Raise e) <-> title_without_string doc.
Proof.
  unfold title_of, title_without_string.
  destruct (find ["title"] any_tag doc) as [t|].
  - destruct (node_string t) eqn:Hs; split.
    + intros [e He]. discriminate.
    + intros (t' & [= <-] & Hnone). congruence.
    + intros _. now exists t.
    + intros _. eexists. reflexivity.
  - split; [intros [e He]; discriminate | intros (t & Ht & _); discriminate].
Qed.

Lemma image_step_raises (u : string) (acc : list image) (img : node) :
  (exists e, image_step u acc img = Raise e)
  <-> exists s e, get img "src" = Some s /\ PyStr.truthy s = true /\ Url.urljoin u s = Raise e.
Proof.
  unfold image_step. destruct (get img "src") as [s|].
  - destruct (PyStr.truthy s) eqn:Hs.
    + unfold mbind, outcome_bind. destruct (Url.urljoin u s) as [abs|e] eqn:Hj; split.
      * intros [e He]. discriminate.
      * intros (s' & e & [= <-] & _ & Hr). congruence.
      * intros _. now exists s, e.
      * intros _. now exists e.
    + split; [intros [e He]; discriminate | intros (s' & e & [= <-] & Ht & _); congruence].
  - split; [intros [e He]; discriminate | intros (s & e & Hs & _); discriminate].
Qed.

Lemma image_loop_raises (u : string) (els : list node) :
  forall acc,
    (exists e, for_each (image_step u) els acc = Raise e)
    <-> exists img s e, In img els /\ get img "src" = Some s
                        /\ PyStr.truthy s = true /\ Url.urljoin u s = Raise e.
Proof.
  induction els as [|img els IH]; intros acc; simpl.
  - split; [intros [e He]; discriminate | intros (img & s & e & [] & _)].
  - unfold mbind, outcome_bind.
    destruct (image_step u acc img) as [acc'|e] eqn:Hstep.
    + rewrite IH. split.
      * intros (i & s & e & Hin & H). exists i, s, e. split; [now right | exact H].
      * intros (i & s & e & [<-|Hin] & H).
        -- assert (Hr : exists e', image_step u acc img = Raise e').
           { apply image_step_raises. now exists s, e. }
           destruct Hr as [e' Hr]. congruence.
        -- now exists i, s, e.
    + split.
      * intros _. assert (Hr : exists e', image_step u acc img = Raise e') by now exists e.
        apply image_step_raises in Hr as (s & e' & H). exists img, s, e'.
        split; [now left | exact H].
      * intros _. now exists e.
Qed.

Lemma scrape_page_url
    (fetch_html : string -> outcome soup) (json_loads : string -> option json) (u : string) :
  page_url (scrape_page fetch_html json_loads u) = u.
Proof.
  unfold scrape_page, try_except, mbind, outcome_bind.
  destruct (fetch_html u) as [doc|e]; [|reflexivity].
  destruct (title_of doc) as [t|e]; [|reflexivity].
  now destruct (images_loop u doc).
Qed.

(** X1: the extraction returns the record with [error] in three cases and no
    other: the fetch raised; the document has a [title] element without a
    single string; one of the first ten [img] elements has a [src] that
    [urljoin] rejects.  In every case the record keeps the requested
    URL. *)
Theorem scrape_page_failure_modes
    (fetch_html : string -> outcome soup) (json_loads : string -> option json) (u : string) :
  page_url (scrape_page fetch_html json_loads u) = u
  /\ (has_error (scrape_page fetch_html json_loads u) = true
      <-> (exists e, fetch_html u = Raise e)
          \/ (exists doc, fetch_html u = Return doc
                          /\ (title_without_string doc \/ unjoinable_src u doc))).
Proof.
  split; [apply scrape_page_url|].
  unfold scrape_page, try_except, mbind, outcome_bind.
  destruct (fetch_html u) as [doc|e] eqn:Hdoc.
  2: { simpl. split; [intros _; left; now exists e | reflexivity]. }
  destruct (title_of doc) as [t|e] eqn:Ht.
  2: { simpl. split; [intros _ | reflexivity]. right. exists doc. split; [reflexivity|].
       left. apply title_of_raises. now exists e. }
  destruct (images_loop u doc) as [imgs|e] eqn:Hi; simpl.
  - split; [discriminate|].
    intros [[e He] | (doc' & [= <-] & [Hbad | Hbad])]; [discriminate | |].
    + apply title_of_raises in Hbad as [e He]. congruence.
    + apply (image_loop_raises u _ []) in Hbad as [e He].
      unfold images_loop in Hi. congruence.
  - split; [intros _ | reflexivity]. right. exists doc. split; [reflexivity|].
    right. apply (image_loop_raises u _ []). now exists e.
Qed.

(** ** Structured data already in the page *)

Lemma extract_structured_data_spec (json_loads : string -> option json) (doc : soup) :
  _extract_existing_structured_data json_loads doc
  = omap (parsed_script json_loads) (ld_json_scripts doc).
Proof.
  unfold _extract_existing_structured_data, ld_json_scripts.
  rewrite (fold_left_append _
             (fun script => match parsed_script json_loads script with
                            | Some entry => [entry]
                            | None => []
                            end)).
  - simpl. induction (find_all _ _ doc) as [|script scripts IH]; simpl; [reflexivity|].
    rewrite IH. now destruct (parsed_script json_loads script).
  - intros acc script. unfold parsed_script.
    destruct (node_string script) as [s|]; [destruct (json_loads s)|];
      now rewrite ?app_nil_r.
Qed.

(** X3: the structured data found in a page holds one entry for each
    [ld+json] script whose single string [json.loads] accepts, in document
    order; a script it rejects, or one with no single string, is skipped and
    changes nothing else.  Every entry has the type [json-ld], and there
    are no more entries than scripts. *)
Theorem extract_structured_data_entries (json_loads : string -> option json) (doc : soup) :
  _extract_existing_structured_data json_loads doc
  = omap (parsed_script json_loads) (ld_json_scripts doc)
  /\ length (_extract_existing_structured_data json_loads doc) <= length (ld_json_scripts doc)
  /\ Forall (fun entry => sd_type entry = "json-ld")
            (_extract_existing_structured_data json_loads doc).
Proof.
  rewrite extract_structured_data_spec. split; [reflexivity|]. split.
  - induction (ld_json_scripts doc) as [|script scripts IH]; [reflexivity|].
    cbn. destruct (parsed_script json_loads script); cbn in *; lia.
  - induction (ld_json_scripts doc) as [|script scripts IH]; [constructor|].
    cbn. destruct (parsed_script json_loads script) as [entry|] eqn:Hp; [|exact IH].
    constructor; [|exact IH].
    unfold parsed_script in Hp.
    destruct (node_string script) as [s|]; [|discriminate].
    destruct (json_loads s); [|discriminate]. now injection Hp as <-.
Qed.

(** X2: what the extraction reads besides the structured data does not depend
    on [json.loads]: whatever the [ld+json] scripts hold, parsable or not,
    the title, the description, the headings, the images and the content
    type are the same, and so is the failure, if any. *)
Theorem scrape_page_ignores_bad_json
    (fetch_html : string -> outcome soup) (loads1 loads2 : string -> option json) (u : string) :
  without_structured_data (scrape_page fetch_html loads1 u)
  = without_structured_data (scrape_page fetch_html loads2 u).
Proof.
  unfold scrape_page, try_except, mbind, outcome_bind.
  destruct (fetch_html u) as [doc|e]; [|reflexivity].
  destruct (title_of doc) as [t|e]; [|reflexivity].
  now destruct (images_loop u doc).
Qed.

(** ** The heading outline *)

Section HeadingBlocks.
Variable found : nat -> list node.
Variable cap : nat.

Let block (i : nat) : list heading := map (heading_of i) (take cap (found i)).

Lemma block_levels (i : nat) : Forall (fun h => h_level h = i) (block i).
Proof.
  unfold block. induction (take cap (found i)) as [|h hs IH]; simpl; constructor;
    [reflexivity | exact IH].
Qed.

Lemma block_at_own_level (i : nat) : List.filter (at_level i) (block i) = block i.
Proof.
  unfold block. induction (take cap (found i)) as [|h hs IH]; simpl; [reflexivity|].
  unfold at_level at 1. simpl. rewrite Nat.eqb_refl. now rewrite IH.
Qed.

Lemma block_at_other_level (i L : nat) :
  i <> L -> List.filter (at_level L) (block i) = [].
Proof.
  intros Hne. unfold block.
  induction (take cap (found i)) as [|h hs IH]; simpl; [reflexivity|].
  unfold at_level at 1. simpl. now apply Nat.eqb_neq in Hne as ->.
Qed.

Lemma blocks_without_level (L : nat) (ls : list nat) :
  ~ In L ls -> List.filter (at_level L) (flat_map block ls) = [].
Proof.
  induction ls as [|i ls IH]; simpl; [reflexivity|].
  intros Hnot. rewrite List.filter_app, block_at_other_level, IH; tauto.
Qed.

Lemma blocks_at_level (L : nat) (ls : list nat) :
  List.NoDup ls -> In L ls -> List.filter (at_level L) (flat_map block ls) = block L.
Proof.
  induction 1 as [|i ls Hnotin Hnodup IH]; simpl; [tauto|].
  rewrite List.filter_app. intros [->|Hin].
  - rewrite block_at_own_level, (blocks_without_level L ls Hnotin). apply app_nil_r.
  - rewrite block_at_other_level by (intros ->; tauto). now apply IH.
Qed.

Lemma blocks_levels_in (ls : list nat) :
  Forall (fun h => In (h_level h) ls) (flat_map block ls).
Proof.
  induction ls as [|i ls IH]; simpl; [constructor|].
  apply Forall_app. split.
  - eapply List.Forall_impl; [|apply block_levels]. intros h <-. now left.
  - eapply List.Forall_impl; [|exact IH]. intros h Hh. now right.
Qed.

Lemma blocks_sorted (ls : list nat) :
  StronglySorted lt ls -> StronglySorted le (map h_level (flat_map block ls)).
Proof.
  induction 1 as [|i ls Hsorted IH Hall]; simpl; [constructor|].
  rewrite map_app.
  assert (Hblock : forall hs, Forall (fun h => h_level h = i) hs ->
            StronglySorted le (map h_level hs ++ map h_level (flat_map block ls))).
  { induction 1 as [|h hs Hh Hhs IHhs]; simpl; [exact IH|].
    constructor; [exact IHhs|]. apply Forall_app. split.
    - apply Forall_map. eapply List.Forall_impl; [|exact Hhs]. intros h' Hh'. simpl in *. lia.
    - apply Forall_map. eapply List.Forall_impl; [|apply blocks_levels_in].
      intros h' Hin. simpl in *. rewrite List.Forall_forall in Hall. apply Hall in Hin. lia. }
  apply Hblock, block_levels.
Qed.

Lemma blocks_length (ls : list nat) :
  length (flat_map block ls) <= cap * length ls.
Proof.
  induction ls as [|i ls IH]; simpl; [lia|].
  rewrite length_app. unfold block at 1. rewrite length_map, length_take. lia.
Qed.
End HeadingBlocks.

Lemma seq_sorted (start len : nat) : StronglySorted lt (seq start len).
Proof.
  revert start. induction len as [|len IH]; intros start; simpl; constructor.
  - apply IH.
  - apply List.Forall_forall. intros x Hx. apply in_seq in Hx. lia.
Qed.

(** X4: the headings of an extracted page, level by level: for each level from
    1 to 6 the entries of that level are the first five elements of that
    heading tag, in document order, each with its text trimmed (an empty
    heading gives an entry with an empty text). *)
Theorem scrape_page_headings_by_level
    (fetch_html : string -> outcome soup) (json_loads : string -> option json)
    (u : string) (doc : soup) (info : page_info) (L : nat) :
  fetch_html u = Return doc ->
  scrape_page fetch_html json_loads u = Page info ->
  1 <= L <= 6 ->
  List.filter (at_level L) (headings info)
  = map (heading_of L) (take 5 (find_all ["h" +:+ str_nat L] any_tag doc)).
Proof.
  intros Hdoc (doc' & t & imgs & Hdoc' & _ & _ & ->)%scrape_page_ok HL.
  rewrite Hdoc in Hdoc'. injection Hdoc' as <-. simpl.
  rewrite headings_loop_spec.
  apply (blocks_at_level (fun i => find_all ["h" +:+ str_nat i] any_tag doc) 5 L).
  - apply List.seq_NoDup.
  - apply in_seq. lia.
Qed.

Lemma scrape_page_headings_by_level_witness :
  List.filter (at_level 2) (headings crowded_info)
  = map (heading_of 2) (take 5 (find_all ["h" +:+ str_nat 2] any_tag crowded_page)).
Proof.
  apply (scrape_page_headings_by_level (fun _ => Return crowded_page) (fun _ => None)
           "https://x.test/p" crowded_page crowded_info 2).
  - reflexivity.
  - vm_compute. reflexivity.
  - lia.
Defined.

(** X5: the heading outline of an extracted page is ordered by level, all the
    first-level headings before the second-level ones and so on, whatever
    their order in the document; every level is between 1 and 6, and there
    are at most 30 entries. *)
Theorem scrape_page_headings_order
    (fetch_html : string -> outcome soup) (json_loads : string -> option json)
    (u : string) (info : page_info) :
  scrape_page fetch_html json_loads u = Page info ->
  StronglySorted le (map h_level (headings info))
  /\ Forall (fun h => 1 <= h_level h <= 6) (headings info)
  /\ length (headings info) <= 30.
Proof.
  intros (doc & t & imgs & _ & _ & _ & ->)%scrape_page_ok. simpl.
  rewrite headings_loop_spec. split; [|split].
  - apply (blocks_sorted (fun i => find_all ["h" +:+ str_nat i] any_tag doc) 5), seq_sorted.
  - eapply List.Forall_impl;
      [|apply (blocks_levels_in (fun i => find_all ["h" +:+ str_nat i] any_tag doc) 5)].
    intros h Hin. apply in_seq in Hin. lia.
  - apply (blocks_length (fun i => find_all ["h" +:+ str_nat i] any_tag doc) 5 (seq 1 6)).
Qed.

Lemma scrape_page_headings_order_witness :
  StronglySorted le (map h_level (headings mixed_info))
  /\ Forall (fun h => 1 <= h_level h <= 6) (headings mixed_info)
  /\ length (headings mixed_info) <= 30.
Proof.
  apply (scrape_page_headings_order (fun _ => Return mixed_page) (fun _ => None)
           "https://x.test/p" mixed_info).
  vm_compute. reflexivity.
Defined.

(** ** The sitemap resolver, whatever the fetch does *)

(** X6: the resolver never returns more than 50 URLs, and returns none when the
    fetch or the XML parse raises: a failure and an empty sitemap give the
    same result. *)
Theorem scrape_sitemap_bounded (fetch_xml : string -> outcome xelem) (u : string) :
  length (scrape_sitemap fetch_xml u) <= 50
  /\ ((exists e, fetch_xml u = Raise e) -> scrape_sitemap fetch_xml u = [])
  /\ (forall root, fetch_xml u = Return root -> findall_url_loc root = [] ->
        scrape_sitemap fetch_xml u = []).
Proof.
  unfold scrape_sitemap, try_except, mbind, outcome_bind.
  destruct (fetch_xml u) as [root|e]; simpl.
  - split; [rewrite length_take; lia|]. split.
    + intros [e He]. discriminate.
    + intros root' [= <-] ->. reflexivity.
  - split; [lia|]. split; [reflexivity|]. intros root' Hr. discriminate.
Qed.

(** ** What the suggestion request depends on *)

Lemma page_infos_error_free (pages : list page) :
  page_infos (List.filter error_free pages) = page_infos pages.
Proof.
  induction pages as [|[info|u e] pages IH]; simpl; [reflexivity | now rewrite IH | exact IH].
Qed.

Lemma summary_of_view (i1 i2 : page_info) :
  summary_view i1 = summary_view i2 -> summary i1 = summary i2.
Proof.
  unfold summary_view, summary. intros [= -> -> -> Hh].
  now rewrite <- (map_map h_text PyRepr.repr_str), Hh, map_map.
Qed.

Lemma summaries_of_views (l1 l2 : list page_info) :
  map summary_view l1 = map summary_view l2 -> map summary l1 = map summary l2.
Proof.
  revert l2. induction l1 as [|i1 l1 IH]; intros [|i2 l2]; simpl; try discriminate;
    [reflexivity|].
  intros Heq.
  assert (Hv : summary_view i1 = summary_view i2) by congruence.
  assert (Hrest : map summary_view l1 = map summary_view l2) by congruence.
  f_equal; [now apply summary_of_view | now apply IH].
Qed.

Lemma suggest_from_summaries
    (client : request -> outcome completion) (json_loads : string -> option json)
    (p1 p2 : list page) :
  pages_summary p1 = pages_summary p2 ->
  suggest_structured_data client json_loads p1 = suggest_structured_data client json_loads p2.
Proof.
  intros Heq. unfold suggest_structured_data, suggest_request. now rewrite Heq.
Qed.

(** X7: only the error-free records among the first five reach the service: the
    operation issues the same request and returns the same result as on
    those records alone.  A sixth page, or a failed page, changes
    nothing. *)
Theorem suggest_uses_first_five_error_free
    (client : request -> outcome completion) (json_loads : string -> option json)
    (pages_info : list page) :
  run (suggest_structured_data client json_loads pages_info)
  = run (suggest_structured_data client json_loads (take 5 pages_info))
  /\ run (suggest_structured_data client json_loads pages_info)
     = run (suggest_structured_data client json_loads
              (List.filter error_free (take 5 pages_info))).
Proof.
  split; f_equal; apply suggest_from_summaries; rewrite !pages_summary_spec.
  - rewrite take_take. reflexivity.
  - rewrite (take_ge (List.filter _ _)) by apply filter_length_take.
    now rewrite page_infos_error_free.
Qed.

(** X8: of a page the service sees the URL, the title, the content type and the
    texts of the first three heading entries, and nothing else: two inputs
    whose error-free records among the first five agree on these lead to
    the same request and the same result.  The description, the images, the
    structured data, the heading levels and the headings past the third are
    never sent. *)
Theorem suggest_sees_summary_view
    (client : request -> outcome completion) (json_loads : string -> option json)
    (p1 p2 : list page) :
  map summary_view (page_infos (take 5 p1)) = map summary_view (page_infos (take 5 p2)) ->
  run (suggest_structured_data client json_loads p1)
  = run (suggest_structured_data client json_loads p2).
Proof.
  intros Hviews. f_equal. apply suggest_from_summaries.
  rewrite !pages_summary_spec. now apply summaries_of_views.
Qed.

Lemma suggest_sees_summary_view_witness :
  run (suggest_structured_data canned_client canned_loads seven_pages)
  = run (suggest_structured_data canned_client canned_loads four_pages_retouched).
Proof.
  apply (suggest_sees_summary_view canned_client canned_loads seven_pages four_pages_retouched).
  reflexivity.
Defined.

(** X9: whatever the input, the suggestion operation issues exactly one request
    and raises nothing: it returns the parsed content of the first choice,
    and the empty suggestion list when the call raises, when the answer
    has no choice, or when the content is not JSON. *)
Theorem suggest_falls_back
    (client : request -> outcome completion) (json_loads : string -> option json)
    (pages_info : list page) :
  run (suggest_structured_data client json_loads pages_info)
  = (suggestions_from json_loads (client (suggest_request pages_info)),
     [suggest_request pages_info])
  /\ ((exists e, client (suggest_request pages_info) = Raise e) ->
      fst (run (suggest_structured_data client json_loads pages_info)) = empty_suggestions)
  /\ (forall c cs, client (suggest_request pages_info) = Return (Completion (c :: cs)) ->
      json_loads c = None ->
      fst (run (suggest_structured_data client json_loads pages_info)) = empty_suggestions).
Proof.
  assert (Hrun : run (suggest_structured_data client json_loads pages_info)
                 = (suggestions_from json_loads (client (suggest_request pages_info)),
                    [suggest_request pages_info])).
  { unfold run, suggest_structured_data, create, mbind, service_bind, mret, service_ret.
    simpl. destruct (client _) as [[[|c cs]]|e]; simpl; try reflexivity.
    unfold loads. now destruct (json_loads c). }
  rewrite Hrun. split; [reflexivity|]. split.
  - intros [e ->]. reflexivity.
  - intros c cs -> Hc. simpl. now rewrite Hc.
Qed.

(** ** What the generation operation returns *)

(** X10: for a record without error the generation operation issues exactly one
    request and returns the content of the first choice of the answer as it
    is, without parsing or checking it; it returns the empty string when
    the call raises or the answer has no choice.  For a record with an
    error it issues no request and raises [KeyError] for the missing
    title. *)
Theorem generate_passes_through
    (client : request -> outcome completion)
    (schema_type : string) (custom_schema : option string) :
  (forall info,
     run (generate_structured_data client (Page info) schema_type custom_schema)
     = (Return (markup_from (client (generate_request info
                                       (schema_to_use schema_type custom_schema)))),
        [generate_request info (schema_to_use schema_type custom_schema)]))
  /\ (forall u e,
        run (generate_structured_data client (PageError u e) schema_type custom_schema)
        = (Raise (KeyError "title"), [])).
Proof.
  split; [|reflexivity].
  intros info. unfold run, generate_structured_data, create, mbind, service_bind,
    mret, service_ret. simpl.
  now destruct (client _) as [[[|c cs]]|e].
Qed.

(** X11: a custom schema that is not empty replaces the schema type altogether:
    the request and the result do not depend on the schema type. *)
Theorem generate_custom_schema_wins
    (client : request -> outcome completion) (pg : page)
    (schema_type other_type custom : string) :
  custom <> EmptyString ->
  schema_to_use schema_type (Some custom) = custom
  /\ run (generate_structured_data client pg schema_type (Some custom))
     = run (generate_structured_data client pg other_type (Some custom))
  /\ run (generate_structured_data client pg schema_type (Some custom))
     = run (generate_structured_data client pg custom None).
Proof.
  intros Hne.
  assert (Huse : forall st, schema_to_use st (Some custom) = custom).
  { intros st. unfold schema_to_use. destruct custom; [congruence | reflexivity]. }
  split; [apply Huse|].
  destruct pg as [info|u e]; [|split; reflexivity].
  unfold generate_structured_data. rewrite !Huse. split; reflexivity.
Qed.

Lemma generate_custom_schema_wins_witness :
  schema_to_use "Product" (Some "Recipe") = "Recipe"
  /\ run (generate_structured_data echo_client (Page crowded_info) "Product" (Some "Recipe"))
     = run (generate_structured_data echo_client (Page crowded_info) "Event" (Some "Recipe"))
  /\ run (generate_structured_data echo_client (Page crowded_info) "Product" (Some "Recipe"))
     = run (generate_structured_data echo_client (Page crowded_info) "Recipe" None).
Proof.
  apply (generate_custom_schema_wins echo_client (Page crowded_info) "Product" "Event" "Recipe").
  discriminate.
Defined.

(** ** The handlers of the page *)

Lemma scrape_each_spec
    (fetch_html : string -> outcome soup) (json_loads : string -> option json)
    (urls : list string) :
  scrape_each fetch_html json_loads urls = map (scrape_page fetch_html json_loads) urls.
Proof.
  unfold scrape_each.
  now rewrite (fold_left_append _ (fun u => [scrape_page fetch_html json_loads u])).
Qed.

Lemma scraped_urls
    (fetch_html : string -> outcome soup) (json_loads : string -> option json)
    (urls : list string) :
  map page_url (map (scrape_page fetch_html json_loads) urls) = urls.
Proof.
  induction urls as [|u urls IH]; simpl; [reflexivity|].
  now rewrite scrape_page_url, IH.
Qed.

Lemma run_suggest
    (client : request -> outcome completion) (json_loads : string -> option json)
    (pages_info : list page) :
  run (suggest_structured_data client json_loads pages_info)
  = (suggestions_from json_loads (client (suggest_request pages_info)),
     [suggest_request pages_info]).
Proof.
  unfold run, suggest_structured_data, create, mbind, service_bind, mret, service_ret.
  simpl. destruct (client _) as [[[|c cs]]|e]; simpl; try reflexivity.
  unfold loads. now destruct (json_loads c).
Qed.

Lemma nonempty_false {A} (l : list A) : nonempty l = false <-> l = [].
Proof. destruct l; simpl; split; congruence. Qed.

(** X12: the sitemap handler.  With an empty field, a failed sitemap or a
    sitemap without URL nothing is scraped and the service is not
    contacted.  Otherwise the first 10 URLs of the sitemap are scraped, in
    order, one record per URL whether the page could be read or not, and one
    request is issued, whose prompt is that of the first 5 URLs: the pages
    6 to 10 are fetched and never sent. *)
Theorem analyze_sitemap_flow
    (fetch_html : string -> outcome soup) (fetch_xml : string -> outcome xelem)
    (json_loads : string -> option json) (client : request -> outcome completion)
    (sitemap_url : string) :
  let urls := scrape_sitemap fetch_xml sitemap_url in
  let pages := map (scrape_page fetch_html json_loads) (take 10 urls) in
  let done := run (analyze_sitemap fetch_html fetch_xml json_loads client sitemap_url) in
  (sitemap_url = EmptyString \/ urls = [] -> done = (None, []))
  /\ (sitemap_url <> EmptyString -> urls <> [] ->
      done = (Some (pages, suggestions_from json_loads (client (suggest_request pages))),
              [suggest_request pages])
      /\ map page_url pages = take 10 urls
      /\ length pages <= 10
      /\ suggest_request pages
         = suggest_request (map (scrape_page fetch_html json_loads) (take 5 urls))).
Proof.
  intros urls pages done. unfold done, analyze_sitemap. fold urls. split.
  - intros [-> | Hnone]; [reflexivity|].
    destruct (PyStr.truthy sitemap_url); [|reflexivity].
    now apply nonempty_false in Hnone as ->.
  - intros Hurl Hsome.
    destruct sitemap_url as [|a rest]; [congruence|]. simpl PyStr.truthy. cbv iota.
    destruct (nonempty urls) eqn:Hne; [|apply nonempty_false in Hne; congruence].
    rewrite scrape_each_spec. fold pages.
    split; [|split; [|split]].
    + unfold run, mbind, service_bind, mret, service_ret.
      pose proof (run_suggest client json_loads pages) as Hrun. unfold run in Hrun.
      now rewrite Hrun.
    + apply scraped_urls.
    + unfold pages. rewrite length_map, length_take. lia.
    + unfold suggest_request. f_equal. rewrite !pages_summary_spec. do 2 f_equal.
      unfold pages. change map with (@fmap list _) at 1 2.
      rewrite <- !fmap_take, !take_take. reflexivity.
Qed.

Lemma lstrip_blank (s : string) : blank s = true -> PyStr.lstrip s = EmptyString.
Proof.
  unfold blank. induction s as [|a s IH]; simpl; [reflexivity|].
  intros [Ha Hs]%andb_prop. rewrite Ha. now apply IH.
Qed.

Lemma strip_blank (s : string) : blank s = true -> PyStr.strip s = EmptyString.
Proof. intros Hs. unfold PyStr.strip. now rewrite lstrip_blank. Qed.

Lemma split_on_blank (c : ascii) (s : string) :
  blank s = true -> forallb blank (PyStr.split_on c s) = true.
Proof.
  unfold blank at 1. induction s as [|a s IH]; simpl; [reflexivity|].
  intros [Ha Hs]%andb_prop. specialize (IH Hs).
  destruct (Ascii.eqb a c); simpl; [exact IH|].
  destruct (PyStr.split_on c s) as [|w ws]; simpl in *.
  - unfold blank. simpl. now rewrite Ha.
  - apply andb_prop in IH as [Hw Hws]. rewrite Hws, andb_true_r.
    unfold blank in *. simpl. now rewrite Ha, Hw.
Qed.

Lemma input_urls_blank (urls_input : string) :
  blank urls_input = true -> input_urls urls_input = [].
Proof.
  intros Hb. unfold input_urls.
  pose proof (split_on_blank (ascii_of_nat 10) urls_input Hb) as Hall.
  induction (PyStr.split_on _ urls_input) as [|w ws IH]; simpl; [reflexivity|].
  simpl in Hall. apply andb_prop in Hall as [Hw Hws].
  rewrite (strip_blank w Hw). simpl. now apply IH.
Qed.

Lemma input_urls_nonempty (urls_input : string) :
  Forall (fun u => u <> EmptyString) (input_urls urls_input).
Proof.
  unfold input_urls.
  induction (PyStr.split_on _ urls_input) as [|w ws IH]; simpl; [constructor|].
  destruct (PyStr.truthy (PyStr.strip w)) eqn:Hw; simpl; [|exact IH].
  constructor; [|exact IH]. intros Heq. rewrite Heq in Hw. discriminate.
Qed.

(** X13: the handler of the URL list.  With an empty box it does nothing.
    Otherwise every line that is not blank is scraped, trimmed, in order and
    without any cap on their number, and exactly one request is issued.  A
    box that holds white space only gives no URL, and the request is still
    issued, with a prompt that holds no page. *)
Theorem analyze_urls_flow
    (fetch_html : string -> outcome soup) (json_loads : string -> option json)
    (client : request -> outcome completion) (urls_input : string) :
  let urls := input_urls urls_input in
  let pages := map (scrape_page fetch_html json_loads) urls in
  let done := run (analyze_urls fetch_html json_loads client urls_input) in
  (urls_input = EmptyString -> done = (None, []))
  /\ (urls_input <> EmptyString ->
      done = (Some (pages, suggestions_from json_loads (client (suggest_request pages))),
              [suggest_request pages])
      /\ map page_url pages = urls)
  /\ Forall (fun u => u <> EmptyString) urls
  /\ (urls_input <> EmptyString -> blank urls_input = true ->
      done = (Some ([], suggestions_from json_loads (client (suggest_request []))),
              [suggest_request []])).
Proof.
  intros urls pages done.
  assert (Hrun : urls_input <> EmptyString ->
            done = (Some (pages, suggestions_from json_loads (client (suggest_request pages))),
                    [suggest_request pages])).
  { intros Hne. unfold done, analyze_urls.
    destruct urls_input as [|a rest]; [congruence|]. simpl PyStr.truthy. cbv iota.
    rewrite scrape_each_spec. fold urls pages.
    unfold run, mbind, service_bind, mret, service_ret.
    pose proof (run_suggest client json_loads pages) as Hs. unfold run in Hs.
    now rewrite Hs. }
  split; [intros ->; reflexivity|]. split; [|split].
  - intros Hne. split; [now apply Hrun | apply scraped_urls].
  - apply input_urls_nonempty.
  - intros Hne Hb. rewrite (Hrun Hne). unfold pages, urls.
    now rewrite (input_urls_blank urls_input Hb).
Qed.

Example analyze_urls_blank_lines :
  run (analyze_urls (fun _ => Raise (RequestException "404")) canned_loads canned_client
         blank_lines)
  = (Some ([], canned_value), [suggest_request []]).
Proof. vm_compute. reflexivity. Qed.

Lemma effective_schema_spec (schema_option custom_text : string) :
  schema_to_use (schema_type_arg schema_option custom_text)
                (custom_schema_arg schema_option custom_text)
  = effective_schema schema_option custom_text.
Proof.
  unfold schema_type_arg, custom_schema_arg, custom_schema_of, effective_schema, schema_to_use.
  destruct (String.eqb schema_option "Altro"); simpl; [|reflexivity].
  now destruct (PyStr.truthy custom_text).
Qed.

Lemma run_generate
    (client : request -> outcome completion) (info : page_info)
    (schema_type : string) (custom_schema : option string) :
  run (generate_structured_data client (Page info) schema_type custom_schema)
  = (Return (markup_from (client (generate_request info
                                    (schema_to_use schema_type custom_schema)))),
     [generate_request info (schema_to_use schema_type custom_schema)]).
Proof.
  unfold run, generate_structured_data, create, mbind, service_bind, mret, service_ret.
  simpl. now destruct (client _) as [[[|c cs]]|e].
Qed.

Lemma menu_schema_chosen (schema_option custom_text : string) :
  In schema_option schema_menu ->
  schema_chosen schema_option custom_text = true ->
  effective_schema schema_option custom_text <> EmptyString.
Proof.
  unfold schema_chosen, custom_schema_of, effective_schema.
  intros Hin Hchosen.
  destruct (String.eqb schema_option "Altro") eqn:Haltro.
  - simpl in Hchosen. rewrite orb_false_r in Hchosen.
    destruct custom_text; [discriminate | congruence].
  - unfold schema_menu in Hin. simpl in Hin.
    repeat (destruct Hin as [<- | Hin]; [discriminate|]). destruct Hin.
Qed.

(** X14: the handler that generates markup for a URL never raises: the page is
    scraped only when a URL and a schema are given, and the generator is
    called only on a record without error, so the missing-title
    [KeyError] cannot occur.  When it is called, exactly one request is
    issued, for the selected option of the menu, or for the text typed when
    the option is [Altro]; for an option of the menu that schema is never
    the empty string.  In every other case nothing is generated and the
    service is not contacted. *)
Theorem generate_for_url_flow
    (fetch_html : string -> outcome soup) (json_loads : string -> option json)
    (client : request -> outcome completion)
    (target_url schema_option custom_text : string) :
  let done := run (generate_for_url fetch_html json_loads client
                     target_url schema_option custom_text) in
  (exists shown, fst done = Return shown)
  /\ (forall info,
        target_url <> EmptyString -> schema_chosen schema_option custom_text = true ->
        scrape_page fetch_html json_loads target_url = Page info ->
        done = (Return (Some (markup_from
                  (client (generate_request info (effective_schema schema_option custom_text))))),
                [generate_request info (effective_schema schema_option custom_text)]))
  /\ (target_url = EmptyString \/ schema_chosen schema_option custom_text = false
      \/ has_error (scrape_page fetch_html json_loads target_url) = true ->
      done = (Return None, []))
  /\ (In schema_option schema_menu -> schema_chosen schema_option custom_text = true ->
      effective_schema schema_option custom_text <> EmptyString).
Proof.
  intros done.
  assert (Hok : forall info,
            target_url <> EmptyString -> schema_chosen schema_option custom_text = true ->
            scrape_page fetch_html json_loads target_url = Page info ->
            done = (Return (Some (markup_from
                      (client (generate_request info
                                 (effective_schema schema_option custom_text))))),
                    [generate_request info (effective_schema schema_option custom_text)])).
  { intros info Hurl Hchosen Hpage. unfold done, generate_for_url.
    destruct target_url as [|a rest]; [congruence|]. simpl PyStr.truthy.
    rewrite Hchosen, Hpage. simpl andb. cbv iota. simpl negb. cbv iota.
    unfold run, mbind at 1, service_bind.
    pose proof (run_generate client info (schema_type_arg schema_option custom_text)
                  (custom_schema_arg schema_option custom_text)) as Hg.
    unfold run in Hg. rewrite Hg, effective_schema_spec. reflexivity. }
  assert (Hnone : target_url = EmptyString \/ schema_chosen schema_option custom_text = false
                  \/ has_error (scrape_page fetch_html json_loads target_url) = true ->
                  done = (Return None, [])).
  { unfold done, generate_for_url. intros [-> | [Hno | Herr]]; [reflexivity | |].
    - rewrite Hno, andb_false_r. reflexivity.
    - rewrite Herr. simpl. now destruct (_ && _). }
  split; [|split; [exact Hok | split; [exact Hnone | apply menu_schema_chosen]]].
  destruct target_url as [|a rest] eqn:Hurl.
  { rewrite Hnone by now left. now eexists. }
  destruct (schema_chosen schema_option custom_text) eqn:Hchosen.
  2: { rewrite Hnone by (right; now left). now eexists. }
  destruct (scrape_page fetch_html json_loads (String a rest)) as [info|u e] eqn:Hpage.
  - rewrite (Hok info) by (congruence || assumption). now eexists.
  - rewrite Hnone by (right; right; reflexivity). now eexists.
Qed.

Lemma truthy_nonempty (s : string) : s <> EmptyString -> PyStr.truthy s = true.
Proof. destruct s; [congruence | reflexivity]. Qed.

Lemma source_headings_loop_spec (doc : soup) :
  source_headings_loop doc
  = flat_map (fun i => map (heading_of i) (take 3 (find_all ["h" +:+ str_nat i] any_tag doc)))
             (seq 1 6).
Proof.
  unfold source_headings_loop.
  rewrite (fold_left_append _
             (fun i => map (heading_of i) (take 3 (find_all ["h" +:+ str_nat i] any_tag doc)))).
  - reflexivity.
  - intros acc i.
    rewrite (fold_left_append _ (fun h => [heading_of i h])) by reflexivity.
    f_equal.
Qed.

Lemma source_headings_cap (doc : soup) (L : nat) :
  length (List.filter (at_level L) (source_headings_loop doc)) <= 3.
Proof.
  rewrite source_headings_loop_spec.
  destruct (in_dec Nat.eq_dec L (seq 1 6)) as [Hin|Hnot].
  - rewrite (blocks_at_level (fun i => find_all ["h" +:+ str_nat i] any_tag doc) 3 L)
      by (apply List.seq_NoDup || exact Hin).
    rewrite length_map, length_take. lia.
  - rewrite (blocks_without_level (fun i => find_all ["h" +:+ str_nat i] any_tag doc) 3 L)
      by exact Hnot.
    simpl. lia.
Qed.

(** X15: the handler for pasted source, once a source and a schema are given.
    The title is read outside any [try]: for a [title] element without a
    single string the exception reaches the caller and the service is not
    contacted, where [scrape_page] returns a record with an error.
    Otherwise exactly one request is issued, for a record that keeps at most
    3 headings per level (5 in [scrape_page]), no image at all, the content
    type [webpage] whatever the markup holds, and the reference URL, or
    [https://esempio.com] when none is given. *)
Theorem generate_from_source_flow
    (client : request -> outcome completion) (parse_html : string -> soup)
    (source_code target_url_manual schema_option custom_text : string) :
  source_code <> EmptyString ->
  schema_chosen schema_option custom_text = true ->
  let doc := parse_html source_code in
  let done := run (generate_from_source client parse_html source_code target_url_manual
                     schema_option custom_text) in
  (title_without_string doc ->
   done = (Raise (AttributeError "'NoneType' object has no attribute 'strip'"), []))
  /\ (~ title_without_string doc ->
      exists info,
        done = (Return (Some (markup_from
                  (client (generate_request info (effective_schema schema_option custom_text))))),
                [generate_request info (effective_schema schema_option custom_text)])
        /\ url info = (if PyStr.truthy target_url_manual then target_url_manual
                       else "https://esempio.com")
        /\ title_of doc = Return (title info)
        /\ images info = []
        /\ content_type info = "webpage"
        /\ forall L, length (List.filter (at_level L) (headings info)) <= 3).
Proof.
  intros Hsrc Hchosen doc done. unfold done, generate_from_source.
  rewrite (truthy_nonempty source_code Hsrc), Hchosen. simpl andb. cbv iota. fold doc.
  split.
  - intros (e & He)%title_of_raises. rewrite He.
    unfold title_of in He.
    destruct (find ["title"] any_tag doc) as [t|]; [|discriminate].
    destruct (node_string t); [discriminate|]. injection He as <-. reflexivity.
  - intros Hgood. destruct (title_of doc) as [t|e] eqn:Ht.
    2: { exfalso. apply Hgood, title_of_raises. now exists e. }
    eexists. split; [|split; [|split; [|split; [|split]]]].
    + unfold run, mbind at 1, service_bind.
      match goal with
      | |- context [generate_structured_data client (Page ?i) ?s ?c] =>
          pose proof (run_generate client i s c) as Hg
      end.
      unfold run in Hg. rewrite Hg, effective_schema_spec. reflexivity.
    + reflexivity.
    + reflexivity.
    + reflexivity.
    + reflexivity.
    + intros L. apply source_headings_cap.
Qed.

Lemma generate_from_source_flow_witness :
  let doc := empty_title_page in
  let done := run (generate_from_source echo_client (fun _ => empty_title_page)
                     "<title></title><h1>H1</h1>" EmptyString "Altro" "Recipe") in
  (title_without_string doc ->
   done = (Raise (AttributeError "'NoneType' object has no attribute 'strip'"), []))
  /\ (~ title_without_string doc ->
      exists info,
        done = (Return (Some (markup_from
                  (echo_client (generate_request info (effective_schema "Altro" "Recipe"))))),
                [generate_request info (effective_schema "Altro" "Recipe")])
        /\ url info = (if PyStr.truthy EmptyString then EmptyString
                       else "https://esempio.com")
        /\ title_of doc = Return (title info)
        /\ images info = []
        /\ content_type info = "webpage"
        /\ forall L, length (List.filter (at_level L) (headings info)) <= 3).
Proof.
  apply (generate_from_source_flow echo_client (fun _ => empty_title_page)
           "<title></title><h1>H1</h1>" EmptyString "Altro" "Recipe").
  - discriminate.
  - reflexivity.
Defined.

Example generate_from_source_empty_title :
  run (generate_from_source echo_client (fun _ => empty_title_page)
         "<title></title><h1>H1</h1>" EmptyString "Product" EmptyString)
  = (Raise (AttributeError "'NoneType' object has no attribute 'strip'"), []).
Proof. reflexivity. Qed.

Example generate_for_url_empty_title :
  run (generate_for_url (fun _ => Return empty_title_page) (fun _ => None) echo_client
         "https://x.test/p" "Product" EmptyString)
  = (Return None, []).
Proof. reflexivity. Qed.
